(** * EMS mock simulation: the state manager and its derivation functions

    Shallow embedding of [backend/ems_api/services.py].

    Numbers.  The program computes with Python floats.  They are read here as
    the real numbers they stand for ([R] of the Standard Library, with its
    [sin] and [PI] for [math.sin] and [math.pi]); the rounding error of the
    floating-point operations, infinities and NaN are outside this model.
    In particular [round] is taken on the exact number: at a decimal tie
    (12.675 to two decimals) the float the program holds lies on one side of
    the tie, and Python may return the other neighbour than the one computed
    here.
    Comparisons, [min], [max], [abs] and [round] follow the Python
    definitions of these builtins (argument order, ties, half-to-even).

    Time.  Every reading of the wall clock ([time.time()], [datetime.now()])
    is an explicit input of the function that performs it. *)

From Stdlib Require Import Reals Lra Lia ZArith List Ascii String Bool Zfloor.
From Stdlib Require Import DecimalString.
Import ListNotations.

Local Open Scope R_scope.

(** ** Python builtins on numbers *)

Module Py.

Definition lt (x y : R) : bool := if Rlt_dec x y then true else false.
Definition gt (x y : R) : bool := lt y x.
Definition le (x y : R) : bool := if Rle_dec x y then true else false.

(** [min(a, b)]: the first argument is kept unless the second is
    strictly smaller. *)
Definition min (a b : R) : R := if lt b a then b else a.

(** [max(a, b)]: the first argument is kept unless the second is
    strictly larger. *)
Definition max (a b : R) : R := if gt b a then b else a.

Definition abs (x : R) : R := Rabs x.

(** Rounding to the nearest integer, ties to the even one. *)
Definition round_half_even (x : R) : Z :=
  let f := Zfloor x in
  let r := x - IZR f in
  if lt r (1 / 2) then f
  else if gt r (1 / 2) then (f + 1)%Z
  else if Z.even f then f else (f + 1)%Z.

(** [round(x, ndigits)] for [ndigits >= 0]. *)
Definition round (x : R) (ndigits : nat) : R :=
  IZR (round_half_even (x * 10 ^ ndigits)) / 10 ^ ndigits.

(** [round(x)]: an integer. *)
Definition round0 (x : R) : Z := round_half_even x.

(** [str(n)] and [f'{n}'] of an integer. *)
Definition str_int (n : Z) : string := NilZero.string_of_int (Z.to_int n).

End Py.

(** ** Data model *)

(** The four keys shared by [power] and [charts]. *)
Inductive key : Type := Grid | Solar | Load | Battery.

Record Power : Type := mkPower {
  grid : R;
  solar : R;
  battery : R;
  load : R
}.

Record Kpis : Type := mkKpis {
  batterySOC : R;
  energyToday : R;
  peakPowerToday : R;
  costSavings : R;
  carbonAvoided : R;
  activeSites : Z
}.

(** One chart sample, [{'timestamp': ..., 'value': ...}]. *)
Record Point : Type := mkPoint {
  timestamp : string;
  value : R
}.

Record Charts : Type := mkCharts {
  grid_series : list Point;
  solar_series : list Point;
  load_series : list Point;
  battery_series : list Point
}.

(** The dictionary held in [EMSSimulation._state]. *)
Record State : Type := mkState {
  power : Power;
  kpis : Kpis;
  charts : Charts;
  lastUpdated : R
}.

(** The class attributes of [EMSSimulation]. *)
Record Sim : Type := mkSim {
  _state : option State;
  _last_update : R
}.

(** One reading of the wall clock: [time.time() * 1000] together with the
    fields of [datetime.now()] the program uses. *)
Record Clock : Type := mkClock {
  time_ms : R;
  now_hour : Z;
  now_minute : Z;
  isoformat : string
}.

Definition power_get (k : key) (p : Power) : R :=
  match k with
  | Grid => grid p
  | Solar => solar p
  | Load => load p
  | Battery => battery p
  end.

Definition charts_get (k : key) (c : Charts) : list Point :=
  match k with
  | Grid => grid_series c
  | Solar => solar_series c
  | Load => load_series c
  | Battery => battery_series c
  end.

Definition charts_set (k : key) (l : list Point) (c : Charts) : Charts :=
  match k with
  | Grid => mkCharts l (solar_series c) (load_series c) (battery_series c)
  | Solar => mkCharts (grid_series c) l (load_series c) (battery_series c)
  | Load => mkCharts (grid_series c) (solar_series c) l (battery_series c)
  | Battery => mkCharts (grid_series c) (solar_series c) (load_series c) l
  end.

(** ** The state manager *)

(** [_initialize_state], with [now] the clock reading in milliseconds. *)
Definition initial_state (now : R) : State :=
  {| power := mkPower 0 0 0 0;
     kpis := mkKpis 75 0 0 0 0 6;
     charts := mkCharts [] [] [] [];
     lastUpdated := now |}.

Definition _initialize_state (now : R) : Sim :=
  {| _state := Some (initial_state now); _last_update := now |}.

(** [hour = now.hour + now.minute / 60] *)
Definition hour_of (c : Clock) : R := IZR (now_hour c) + IZR (now_minute c) / 60.

Definition solar_factor (hour : R) : R :=
  if Py.le 6 hour && Py.le hour 18
  then sin ((hour - 6) / 12 * PI)
  else 0.

Definition solar_power (c : Clock) : R :=
  50 * solar_factor (hour_of c) * (0.9 + sin (time_ms c / 10000) * 0.1).

Definition base_load : R := 80.

Definition time_factor (hour : R) : R := 0.7 + 0.3 * sin ((hour - 6) / 12 * PI).

Definition load_power (c : Clock) : R :=
  base_load * time_factor (hour_of c) * (0.95 + sin (time_ms c / 8000) * 0.05).

(** The battery controller: from the net power, the stored SOC and the
    elapsed time to the battery power and the SOC before clamping. *)
Definition battery_control (net_power soc delta_ms : R) : R * R :=
  if Py.gt net_power 5 && Py.lt soc 95 then
    let battery_power := Py.min (net_power * 0.8) 25 in
    (battery_power, soc + (battery_power * delta_ms / 1000 / 3600) / 100 * 2)
  else if Py.lt net_power (-5) && Py.gt soc 15 then
    let battery_power := Py.max (net_power * 0.8) (-25) in
    (battery_power, soc + (battery_power * delta_ms / 1000 / 3600) / 100 * 2)
  else
    (0, soc).

(** [soc = max(10, min(100, soc))] *)
Definition clamp_soc (soc : R) : R := Py.max 10 (Py.min 100 soc).

Definition the_keys : list key := [Grid; Solar; Load; Battery].

(** "Keep only last 100 points": [pop(0)] when the series has grown past
    100 entries. *)
Definition keep_last_100 (l : list Point) : list Point :=
  if (100 <? List.length l)%nat then tl l else l.

(** One round of the chart loop: append, then trim. *)
Definition chart_push (ts : string) (p : Power) (cs : Charts) (k : key) : Charts :=
  let l := charts_get k cs ++ [mkPoint ts (power_get k p)] in
  charts_set k (keep_last_100 l) cs.

(** The values [_advance_simulation] computes before it touches the state. *)
Record Flows : Type := mkFlows {
  f_solar : R;
  f_load : R;
  f_battery : R;
  f_soc : R;
  f_grid : R
}.

Definition flows (c : Clock) (delta_ms : R) (st : State) : Flows :=
  let solar_power := solar_power c in
  let load_power := load_power c in
  let soc := batterySOC (kpis st) in
  let net_power := solar_power - load_power in
  let '(battery_power, soc) := battery_control net_power soc delta_ms in
  let soc := clamp_soc soc in
  let grid_power := load_power - solar_power - battery_power in
  mkFlows solar_power load_power battery_power soc grid_power.

(** [_advance_simulation] on the state dictionary. *)
Definition advance (c : Clock) (delta_ms : R) (st : State) : State :=
  let fl := flows c delta_ms st in
  let power' :=
    {| grid := Py.round (f_grid fl) 2;
       solar := Py.round (f_solar fl) 2;
       battery := Py.round (f_battery fl) 2;
       load := Py.round (f_load fl) 2 |} in
  let delta_hours := delta_ms / 1000 / 3600 in
  let k := kpis st in
  let kpis' :=
    {| batterySOC := Py.round (f_soc fl) 2;
       energyToday := energyToday k + f_load fl * delta_hours;
       peakPowerToday := Py.max (peakPowerToday k) (f_load fl);
       costSavings := costSavings k + f_solar fl * delta_hours * 0.15;
       carbonAvoided := carbonAvoided k + f_solar fl * delta_hours * 0.82;
       activeSites := activeSites k |} in
  let charts' := fold_left (chart_push (isoformat c) power') the_keys (charts st) in
  {| power := power';
     kpis := kpis';
     charts := charts';
     lastUpdated := time_ms c |}.

(** [_advance_simulation] on the class: without a state dictionary the
    subscript on [None] raises, which is [None] here. *)
Definition _advance_simulation (c : Clock) (delta_ms : R) (s : Sim) : option Sim :=
  match _state s with
  | None => None
  | Some st => Some {| _state := Some (advance c delta_ms st); _last_update := time_ms c |}
  end.

(** [get_state].  [current_time] is the reading taken on entry, [init_now]
    the one [_initialize_state] takes when there is no state yet, and [c]
    the one [_advance_simulation] takes when it runs.  The result is the
    returned dictionary and the class afterwards; [None] is a raised
    exception. *)
Definition get_state (current_time init_now : R) (c : Clock) (s : Sim)
  : option (State * Sim) :=
  let s1 := match _state s with
            | None => _initialize_state init_now
            | Some _ => s
            end in
  let delta := current_time - _last_update s1 in
  match (if Py.gt delta 100 then _advance_simulation c delta s1 else Some s1) with
  | None => None
  | Some s2 =>
      match _state s2 with
      | Some st => Some (st, s2)
      | None => None
      end
  end.

(** ** The datetime operations of the derivation functions

    The formatting of dates is the library's; the functions below take the
    three operations they use as inputs. *)
Record Calendar : Type := mkCalendar {
  (** [datetime.fromtimestamp(seconds).isoformat()] *)
  fromtimestamp_iso : R -> string;
  (** [(now - timedelta(days=i)).isoformat()] *)
  days_before_iso : Clock -> Z -> string;
  (** [now.replace(hour=h, minute=m, second=s).isoformat()] *)
  replace_iso : Clock -> Z -> Z -> Z -> string
}.

(** ** Derivation functions *)

(** The values the returned dictionaries hold. *)
Inductive pyval : Type :=
| PFloat (x : R)
| PInt (n : Z)
| PStr (s : string)
| PBool (b : bool).

(** A dictionary literal, in insertion order. *)
Definition dict : Type := list (string * pyval).

Fixpoint dict_get (k : string) (d : dict) : option pyval :=
  match d with
  | [] => None
  | (k', v) :: d' => if String.eqb k k' then Some v else dict_get k d'
  end.

Local Open Scope string_scope.

Definition battery_critical_alert (now_iso : string) (soc : R) : dict :=
  [ ("id", PStr "alert-battery-critical");
    ("timestamp", PStr now_iso);
    ("severity", PStr "critical");
    ("category", PStr "battery");
    ("title", PStr "Critical Battery Level");
    ("message", PStr (String.append "Battery SOC at "
        (String.append (Py.str_int (Py.round0 soc)) "%. Immediate charging required.")));
    ("acknowledged", PBool false) ].

Definition battery_warning_alert (now_iso : string) (soc : R) : dict :=
  [ ("id", PStr "alert-battery-warning");
    ("timestamp", PStr now_iso);
    ("severity", PStr "warning");
    ("category", PStr "battery");
    ("title", PStr "Low Battery Level");
    ("message", PStr (String.append "Battery SOC at "
        (String.append (Py.str_int (Py.round0 soc)) "%. Consider charging.")));
    ("acknowledged", PBool false) ].

Definition grid_high_alert (now_iso : string) (grid_power : R) : dict :=
  [ ("id", PStr "alert-grid-high");
    ("timestamp", PStr now_iso);
    ("severity", PStr "warning");
    ("category", PStr "grid");
    ("title", PStr "High Grid Power");
    ("message", PStr (String.append "Grid power at "
        (String.append (Py.str_int (Py.round0 (Py.abs grid_power))) " kW.")));
    ("acknowledged", PBool false) ].

(** The body of [get_alerts] after its call of [get_state]. *)
Definition alerts_of (now_iso : string) (state : State) : list dict :=
  let alerts : list dict := [] in
  let soc := batterySOC (kpis state) in
  let alerts :=
    if Py.lt soc 20 then (alerts ++ [battery_critical_alert now_iso soc])%list
    else if Py.lt soc 30 then (alerts ++ [battery_warning_alert now_iso soc])%list
    else alerts in
  let grid_power := grid (power state) in
  let alerts :=
    if Py.gt (Py.abs grid_power) 50 then (alerts ++ [grid_high_alert now_iso grid_power])%list
    else alerts in
  alerts.

(** [get_alerts]: the clock readings of [get_state], then [now] for the
    function's own [datetime.now()]. *)
Definition get_alerts (current_time init_now : R) (c now : Clock) (s : Sim)
  : option (list dict * Sim) :=
  match get_state current_time init_now c s with
  | None => None
  | Some (state, s') => Some (alerts_of (isoformat now) state, s')
  end.

(** An entry of the static table of [get_sites]. *)
Record Site : Type := mkSite {
  site_id : string;
  site_name : string;
  site_capacity : Z
}.

Definition sites : list Site :=
  [ mkSite "site-001" "Hyderabad Data Center" 1200;
    mkSite "site-002" "Mumbai Manufacturing" 800;
    mkSite "site-003" "Pune Office Complex" 500;
    mkSite "site-004" "Bangalore Tech Park" 1500;
    mkSite "site-005" "Chennai Industrial" 900;
    mkSite "site-006" "Delhi Campus" 600 ].

(** [enumerate(l)], counting from [i]. *)
Fixpoint enumerate_from {A : Type} (i : Z) (l : list A) : list (Z * A) :=
  match l with
  | [] => []
  | x :: l' => (i, x) :: enumerate_from (i + 1) l'
  end.

Definition enumerate {A : Type} (l : list A) : list (Z * A) := enumerate_from 0 l.

(** The clamped per-site SOC of the loop body. *)
Definition site_soc (state : State) (idx : Z) : R :=
  let soc := batterySOC (kpis state) + (IZR idx - 3) * 2 in
  Py.max 10 (Py.min 100 soc).

Definition site_current_power (state : State) (idx : Z) : R :=
  let variance := 0.8 + (IZR idx * 0.05) in
  load (power state) * variance / INR (List.length sites).

(** One round of the loop of [get_sites]: the dictionary appended for the
    site at index [idx].  [round(85 + idx * 2, 1)] rounds an integer and
    returns it; the clamped SOC is a number of [R] here whether Python
    holds it as the integer bound or as a float. *)
Definition site_entry (now_iso : string) (state : State) (idx : Z) (site : Site) : dict :=
  let current_power := site_current_power state idx in
  let soc := site_soc state idx in
  [ ("siteId", PStr (site_id site));
    ("name", PStr (site_name site));
    ("currentPower", PFloat (Py.round current_power 2));
    ("soc", PFloat (Py.round soc 1));
    ("efficiency", PInt (85 + idx * 2));
    ("status", PStr (if Py.gt soc 20 then "online" else "warning"));
    ("timestamp", PStr now_iso) ].

(** The body of [get_sites] after its call of [get_state]. *)
Definition sites_of (now_iso : string) (state : State) : list dict :=
  map (fun '(idx, site) => site_entry now_iso state idx site) (enumerate sites).

Definition get_sites (current_time init_now : R) (c now : Clock) (s : Sim)
  : option (list dict * Sim) :=
  match get_state current_time init_now c s with
  | None => None
  | Some (state, s') => Some (sites_of (isoformat now) state, s')
  end.

(** The dictionary [get_charts] returns: the four series and a timestamp. *)
Record ChartsReport : Type := mkChartsReport {
  ch_grid : list Point;
  ch_solar : list Point;
  ch_load : list Point;
  ch_battery : list Point;
  ch_timestamp : string
}.

(** The series a report holds under one of the four keys. *)
Definition report_series (k : key) (r : ChartsReport) : list Point :=
  match k with
  | Grid => ch_grid r
  | Solar => ch_solar r
  | Load => ch_load r
  | Battery => ch_battery r
  end.

(** The body of [get_charts] after its call of [get_state]: the four
    series of the state, as they are, and the time of the last update. *)
Definition charts_of (cal : Calendar) (state : State) : ChartsReport :=
  {| ch_grid := grid_series (charts state);
     ch_solar := solar_series (charts state);
     ch_load := load_series (charts state);
     ch_battery := battery_series (charts state);
     ch_timestamp := fromtimestamp_iso cal (lastUpdated state / 1000) |}.

Definition get_charts (cal : Calendar) (current_time init_now : R) (c : Clock)
  (s : Sim) : option (ChartsReport * Sim) :=
  match get_state current_time init_now c s with
  | None => None
  | Some (state, s') => Some (charts_of cal state, s')
  end.

Local Close Scope string_scope.

(** ** Runs of the simulation *)

(** A step is the clock reading an advance takes and its elapsed time. *)
Definition step : Type := (Clock * R)%type.

(** Successive advances, oldest first. *)
Definition run (steps : list step) (st : State) : State :=
  fold_left (fun st '(c, delta_ms) => advance c delta_ms st) steps st.

(** The sample every advance of a run appended to the series [k],
    oldest first. *)
Fixpoint appended (k : key) (steps : list step) (st : State) : list Point :=
  match steps with
  | [] => []
  | (c, delta_ms) :: steps' =>
      let st' := advance c delta_ms st in
      mkPoint (isoformat c) (power_get k (power st')) :: appended k steps' st'
  end.

(** The last [n] elements of a list. *)
Definition lastn {A : Type} (n : nat) (l : list A) : list A :=
  skipn (List.length l - n) l.

(** ** Reading the returned dictionaries *)

(** [v == s] for a looked-up value [v] and a string [s]. *)
Definition is_str (s : string) (v : option pyval) : bool :=
  match v with
  | Some (PStr s') => String.eqb s s'
  | _ => false
  end.

Definition has_category (cat : string) (d : dict) : bool :=
  is_str cat (dict_get "category" d).

Definition is_alert (cat sev : string) (d : dict) : bool :=
  has_category cat d && is_str sev (dict_get "severity" d).

(** ** More builtins: strings *)

Module PyStr.

Definition is_lower (c : Ascii.ascii) : bool :=
  let n := Ascii.nat_of_ascii c in (97 <=? n)%nat && (n <=? 122)%nat.

Definition is_upper (c : Ascii.ascii) : bool :=
  let n := Ascii.nat_of_ascii c in (65 <=? n)%nat && (n <=? 90)%nat.

Definition upper (c : Ascii.ascii) : Ascii.ascii :=
  if is_lower c then Ascii.ascii_of_nat (Ascii.nat_of_ascii c - 32) else c.

Definition lower (c : Ascii.ascii) : Ascii.ascii :=
  if is_upper c then Ascii.ascii_of_nat (Ascii.nat_of_ascii c + 32) else c.

(** [s.replace(a, b)] for single characters [a] and [b]. *)
Fixpoint replace_char (a b : Ascii.ascii) (s : string) : string :=
  match s with
  | EmptyString => EmptyString
  | String c s' => String (if Ascii.eqb c a then b else c) (replace_char a b s')
  end.

(** [s.title()] on ASCII text: a cased character is made upper case when
    the character before it is not cased, and lower case when it is. *)
Fixpoint title_from (previous_is_cased : bool) (s : string) : string :=
  match s with
  | EmptyString => EmptyString
  | String c s' =>
      if is_lower c || is_upper c
      then String (if previous_is_cased then lower c else upper c) (title_from true s')
      else String c (title_from false s')
  end.

Definition title (s : string) : string := title_from false s.

(** [f"{n:02d}"] for [n >= 0]. *)
Definition fmt_02d (n : Z) : string :=
  if (n <? 10)%Z then String.append "0" (Py.str_int n) else Py.str_int n.

End PyStr.

(** ** [get_live_telemetry] and [get_kpis] *)

Record Telemetry : Type := mkTelemetry {
  t_gridPower : R;
  t_solarPower : R;
  t_loadPower : R;
  t_batteryPower : R;
  t_batterySOC : R;
  t_timestamp : string
}.

Definition telemetry_of (cal : Calendar) (state : State) : Telemetry :=
  {| t_gridPower := grid (power state);
     t_solarPower := solar (power state);
     t_loadPower := load (power state);
     t_batteryPower := battery (power state);
     t_batterySOC := batterySOC (kpis state);
     t_timestamp := fromtimestamp_iso cal (lastUpdated state / 1000) |}.

Definition get_live_telemetry (cal : Calendar) (current_time init_now : R)
  (c : Clock) (s : Sim) : option (Telemetry * Sim) :=
  match get_state current_time init_now c s with
  | None => None
  | Some (state, s') => Some (telemetry_of cal state, s')
  end.

Record KpiReport : Type := mkKpiReport {
  k_energyToday : R;
  k_peakPower : R;
  k_costSavings : R;
  k_carbonAvoided : R;
  k_activeSites : Z;
  k_timestamp : string
}.

Definition kpis_of (cal : Calendar) (state : State) : KpiReport :=
  {| k_energyToday := Py.round (energyToday (kpis state)) 2;
     k_peakPower := Py.round (peakPowerToday (kpis state)) 2;
     k_costSavings := Py.round (costSavings (kpis state)) 2;
     k_carbonAvoided := Py.round (carbonAvoided (kpis state)) 2;
     k_activeSites := activeSites (kpis state);
     k_timestamp := fromtimestamp_iso cal (lastUpdated state / 1000) |}.

Definition get_kpis (cal : Calendar) (current_time init_now : R)
  (c : Clock) (s : Sim) : option (KpiReport * Sim) :=
  match get_state current_time init_now c s with
  | None => None
  | Some (state, s') => Some (kpis_of cal state, s')
  end.

(** [get_site_charts]: the site id is not used. *)
Definition get_site_charts (site_id : string) (cal : Calendar)
  (current_time init_now : R) (c : Clock) (s : Sim)
  : option (ChartsReport * Sim) :=
  get_charts cal current_time init_now c s.

(** ** [get_tariff] *)

Record TariffStructure : Type := mkTariffStructure {
  ts_peak : R;
  ts_normal : R;
  ts_offPeak : R;
  ts_export : R;
  ts_demandCharge : R;
  ts_fixedCharge : R
}.

Definition tariff_structure : TariffStructure :=
  {| ts_peak := 8.5;
     ts_normal := 6.2;
     ts_offPeak := 4.5;
     ts_export := 3.5;
     ts_demandCharge := 350;
     ts_fixedCharge := 120 |}.

Definition get_current_rate (hour : Z) : R * string :=
  if ((6 <=? hour) && (hour <? 10) || (18 <=? hour) && (hour <? 22))%Z
  then (ts_peak tariff_structure, "peak"%string)
  else if ((22 <=? hour) || (hour <? 6))%Z
  then (ts_offPeak tariff_structure, "off-peak"%string)
  else (ts_normal tariff_structure, "mid-peak"%string).

(** An entry of the tariff schedule, and the shape of [currentRate]. *)
Record Rate : Type := mkRate {
  r_name : string;
  r_startHour : Z;
  r_endHour : Z;
  r_rate : R;
  r_type : string
}.

Definition tariff_schedule : list Rate :=
  [ mkRate "Peak Hours" 6 10 (ts_peak tariff_structure) "peak";
    mkRate "Normal Hours" 10 18 (ts_normal tariff_structure) "mid-peak";
    mkRate "Peak Hours" 18 22 (ts_peak tariff_structure) "peak";
    mkRate "Off-Peak Hours" 22 6 (ts_offPeak tariff_structure) "off-peak" ].

Record Billing : Type := mkBilling {
  b_energyCharges : R;
  b_demandCharges : R;
  b_fixedCharges : R;
  b_taxes : R;
  b_total : R;
  b_projectedMonthly : R
}.

Record CostBreakdown : Type := mkCostBreakdown {
  cb_solar : R;
  cb_grid : R;
  cb_battery : R
}.

Record TariffInfo : Type := mkTariffInfo {
  ti_currentRate : Rate;
  ti_todayCost : R;
  ti_monthToDateCost : R;
  ti_projectedMonthCost : R;
  ti_savingsVsGrid : R;
  ti_savingsPercentage : R;
  ti_demandCharge : R;
  ti_peakDemandCost : R;
  ti_billing : Billing;
  ti_tariffSchedule : list Rate;
  ti_costBreakdown : CostBreakdown
}.

(** The period of the day [get_tariff] reports for [current_hour]. *)
Definition current_rate_of (current_hour : Z) : Rate :=
  let '(current_rate, period_type) := get_current_rate current_hour in
  let '(start_hour, end_hour) :=
    if String.eqb period_type "peak" then
      ((if (current_hour <? 12)%Z then 6 else 18)%Z,
       (if (current_hour <? 12)%Z then 10 else 22)%Z)
    else if String.eqb period_type "mid-peak" then (10, 18)%Z
    else (22, 6)%Z in
  {| r_name := String.append
                 (PyStr.title (PyStr.replace_char "-"%char " "%char period_type)) " Hours";
     r_startHour := start_hour;
     r_endHour := end_hour;
     r_rate := current_rate;
     r_type := period_type |}.

(** The savings percentage before rounding. *)
Definition savings_percentage_of (today_cost cost_savings : R) : R :=
  let baseline_cost := today_cost + cost_savings in
  if Py.gt baseline_cost 0 then cost_savings / baseline_cost * 100 else 0.

Definition today_cost_of (energy_today : R) : R :=
  let avg_tariff :=
    (ts_peak tariff_structure + ts_normal tariff_structure
     + ts_offPeak tariff_structure) / 3 in
  Py.max 0 (energy_today * avg_tariff * 0.3).

(** The body of [get_tariff] after its call of [get_state]. *)
Definition tariff_of (now : Clock) (state : State) : TariffInfo :=
  let current_hour := now_hour now in
  let energy_today := energyToday (kpis state) in
  let cost_savings := costSavings (kpis state) in
  let peak_power_kw := peakPowerToday (kpis state) in
  let today_cost := today_cost_of energy_today in
  let month_to_date_cost := today_cost * 15 in
  let projected_month_cost := today_cost * 30 in
  let demand_charge := (peak_power_kw * ts_demandCharge tariff_structure) / 30 in
  let peak_demand_cost := demand_charge in
  let energy_charges := projected_month_cost in
  let demand_charges := peak_power_kw * ts_demandCharge tariff_structure in
  let fixed_charges := ts_fixedCharge tariff_structure in
  let taxes := (energy_charges + demand_charges + fixed_charges) * 0.18 in
  let total := energy_charges + demand_charges + fixed_charges + taxes in
  let savings_percentage := savings_percentage_of today_cost cost_savings in
  {| ti_currentRate := current_rate_of current_hour;
     ti_todayCost := Py.round today_cost 2;
     ti_monthToDateCost := Py.round month_to_date_cost 2;
     ti_projectedMonthCost := Py.round projected_month_cost 2;
     ti_savingsVsGrid := Py.round cost_savings 2;
     ti_savingsPercentage := Py.round savings_percentage 1;
     ti_demandCharge := Py.round demand_charge 2;
     ti_peakDemandCost := Py.round peak_demand_cost 2;
     ti_billing :=
       {| b_energyCharges := Py.round energy_charges 2;
          b_demandCharges := Py.round demand_charges 2;
          b_fixedCharges := Py.round fixed_charges 2;
          b_taxes := Py.round taxes 2;
          b_total := Py.round total 2;
          b_projectedMonthly := Py.round total 2 |};
     ti_tariffSchedule := tariff_schedule;
     ti_costBreakdown :=
       {| cb_solar := Py.round (cost_savings * 0.7) 2;
          cb_grid := Py.round today_cost 2;
          cb_battery := Py.round (cost_savings * 0.3) 2 |} |}.

Definition get_tariff (current_time init_now : R) (c now : Clock) (s : Sim)
  : option (TariffInfo * Sim) :=
  match get_state current_time init_now c s with
  | None => None
  | Some (state, s') => Some (tariff_of now state, s')
  end.


(** ** [get_analytics] *)

Record Breakdown : Type := mkBreakdown {
  cb_hvac : R;
  cb_lighting : R;
  cb_equipment : R;
  cb_other : R
}.

Record Trend : Type := mkTrend {
  tr_period : string;
  tr_current : R;
  tr_previous : R;
  tr_change : R;
  tr_isPositive : bool
}.

Record Trends : Type := mkTrends {
  tr_daily : Trend;
  tr_weekly : Trend;
  tr_monthly : Trend
}.

Record HistoryPoint : Type := mkHistoryPoint {
  hp_timestamp : string;
  hp_value : R;
  hp_category : string
}.

Record Analytics : Type := mkAnalytics {
  an_todayConsumption : R;
  an_yesterdayConsumption : R;
  an_weekConsumption : R;
  an_lastWeekConsumption : R;
  an_monthConsumption : R;
  an_lastMonthConsumption : R;
  an_peakDemand : R;
  an_peakDemandTime : string;
  an_averageLoadFactor : R;
  an_trends : Trends;
  an_historicalData : list HistoryPoint;
  an_consumptionBreakdown : Breakdown
}.

(** [((current - previous) / previous) * 100 if previous > 0 else 0] *)
Definition change_of (current previous : R) : R :=
  if Py.gt previous 0 then ((current - previous) / previous) * 100 else 0.

(** [range(6, -1, -1)] *)
Definition days_back : list Z := [6; 5; 4; 3; 2; 1; 0]%Z.

(** The body of [get_analytics] after its call of [get_state]. *)
Definition analytics_of (cal : Calendar) (now : Clock) (state : State) : Analytics :=
  let total_consumption := load (power state) in
  let energy_today := energyToday (kpis state) in
  let peak_demand := peakPowerToday (kpis state) in
  let consumption_breakdown :=
    {| cb_hvac := Py.round (total_consumption * 0.45) 2;
       cb_lighting := Py.round (total_consumption * 0.25) 2;
       cb_equipment := Py.round (total_consumption * 0.20) 2;
       cb_other := Py.round (total_consumption * 0.10) 2 |} in
  let yesterday_consumption := energy_today * 0.92 in
  let week_consumption := energy_today * 6.5 in
  let last_week_consumption := week_consumption * 0.88 in
  let month_consumption := energy_today * 22 in
  let last_month_consumption := month_consumption * 0.95 in
  let daily_change := change_of energy_today yesterday_consumption in
  let weekly_change := change_of week_consumption last_week_consumption in
  let monthly_change := change_of month_consumption last_month_consumption in
  let historical_data :=
    map (fun i : Z =>
           {| hp_timestamp := days_before_iso cal now i;
              hp_value := Py.round (energy_today * (0.9 + IZR (i mod 3) * 0.1)) 2;
              hp_category := "consumption" |})
        days_back in
  {| an_todayConsumption := Py.round energy_today 2;
     an_yesterdayConsumption := Py.round yesterday_consumption 2;
     an_weekConsumption := Py.round week_consumption 2;
     an_lastWeekConsumption := Py.round last_week_consumption 2;
     an_monthConsumption := Py.round month_consumption 2;
     an_lastMonthConsumption := Py.round last_month_consumption 2;
     an_peakDemand := Py.round peak_demand 2;
     an_peakDemandTime := replace_iso cal now 13 30 0;
     an_averageLoadFactor :=
       Py.round (if Py.gt peak_demand 0
                 then total_consumption / peak_demand * 100 else 0) 2;
     an_trends :=
       {| tr_daily :=
            {| tr_period := "day";
               tr_current := Py.round energy_today 2;
               tr_previous := Py.round yesterday_consumption 2;
               tr_change := Py.round daily_change 1;
               tr_isPositive := Py.gt daily_change 0 |};
          tr_weekly :=
            {| tr_period := "week";
               tr_current := Py.round week_consumption 2;
               tr_previous := Py.round last_week_consumption 2;
               tr_change := Py.round weekly_change 1;
               tr_isPositive := Py.gt weekly_change 0 |};
          tr_monthly :=
            {| tr_period := "month";
               tr_current := Py.round month_consumption 2;
               tr_previous := Py.round last_month_consumption 2;
               tr_change := Py.round monthly_change 1;
               tr_isPositive := Py.gt monthly_change 0 |} |};
     an_historicalData := historical_data;
     an_consumptionBreakdown := consumption_breakdown |}.

Definition get_analytics (cal : Calendar) (current_time init_now : R)
  (c now : Clock) (s : Sim) : option (Analytics * Sim) :=
  match get_state current_time init_now c s with
  | None => None
  | Some (state, s') => Some (analytics_of cal now state, s')
  end.

(** ** [get_weather] *)

Definition get_condition (cc : R) (hr : Z) : string :=
  if ((hr <? 6) || (19 <? hr))%Z then "clear"
  else if Py.lt cc 20 then "clear"
  else if Py.lt cc 50 then "partly_cloudy"
  else if Py.lt cc 80 then "cloudy"
  else "rainy".

Definition calc_solar_irradiance (hr : Z) (cc : R) : R :=
  if ((hr <? 6) || (19 <? hr))%Z then 0
  else
    let hour_angle := (IZR hr - 12) / 6 in
    let base_irradiance := 1000 * cos (hour_angle * PI / 2) in
    let cloud_factor := 1 - (cc / 100) * 0.7 in
    Py.max 0 (base_irradiance * cloud_factor).

(** [expected_solar == 0] *)
Definition is_zero (x : R) : bool := if Req_EM_T x 0 then true else false.

(** The cloud cover derived from the solar output.  With floats the test
    [expected_solar == 0] at hour 18 depends on the value the library gives
    for the sine of [math.pi]; here that sine is 0. *)
Definition cloud_cover_of (current_hour : Z) (solar_power : R) : R :=
  let expected_solar :=
    50 * (if ((6 <=? current_hour) && (current_hour <=? 18))%Z
          then sin ((IZR current_hour - 6) / 12 * PI) else 0) in
  if is_zero expected_solar then 0
  else Py.max 0 (Py.min 100 ((1 - solar_power / expected_solar) * 100)).

Record Conditions : Type := mkConditions {
  w_temperature : R;
  w_feelsLike : R;
  w_humidity : Z;
  w_cloudCover : Z;
  w_windSpeed : Z;
  w_windDirection : string;
  w_condition : string;
  w_solarIrradiance : Z;
  w_uvIndex : Z
}.

Record Forecast : Type := mkForecast {
  fc_hour : string;
  fc_temperature : R;
  fc_cloudCover : Z;
  fc_solarIrradiance : Z
}.

Record Weather : Type := mkWeather {
  w_location : string;
  w_city : string;
  w_state : string;
  w_timestamp : string;
  w_current : Conditions;
  w_hourlyForecast : list Forecast;
  w_sunrise : string;
  w_sunset : string
}.

(** [range(1, 13)] *)
Definition forecast_steps : list Z := [1; 2; 3; 4; 5; 6; 7; 8; 9; 10; 11; 12]%Z.

Definition base_temp : R := 30.

(** One round of the forecast loop. *)
Definition forecast_entry (current_hour : Z) (cloud_cover : R) (i : Z) : Forecast :=
  let forecast_hour := ((current_hour + i) mod 24)%Z in
  let forecast_temp := base_temp + sin ((IZR forecast_hour - 6) / 12 * PI) * 5 in
  let forecast_cc := Py.max 0 (Py.min 100 (cloud_cover + sin (IZR i / 3) * 20)) in
  {| fc_hour := String.append (PyStr.fmt_02d forecast_hour) ":00";
     fc_temperature := Py.round forecast_temp 1;
     fc_cloudCover := Py.round0 forecast_cc;
     fc_solarIrradiance := Py.round0 (calc_solar_irradiance forecast_hour forecast_cc) |}.

(** The body of [get_weather] after its call of [get_state]. *)
Definition weather_of (cal : Calendar) (now : Clock) (state : State) : Weather :=
  let current_hour := now_hour now in
  let hour_variation := sin ((IZR current_hour - 6) / 12 * PI) * 5 in
  let temperature := base_temp + hour_variation in
  let solar_power := solar (power state) in
  let cloud_cover := cloud_cover_of current_hour solar_power in
  let current :=
    {| w_temperature := Py.round temperature 1;
       w_feelsLike := Py.round (temperature + 2) 1;
       w_humidity := 75;
       w_cloudCover := Py.round0 cloud_cover;
       w_windSpeed := 15;
       w_windDirection := "SE";
       w_condition := get_condition cloud_cover current_hour;
       w_solarIrradiance := Py.round0 (calc_solar_irradiance current_hour cloud_cover);
       w_uvIndex :=
         if ((6 <=? current_hour) && (current_hour <=? 19))%Z
         then Z.min 11 (Py.round0 ((1 - cloud_cover / 100) * 8 + 3))
         else 0%Z |} in
  {| w_location := "Chennai, Tamil Nadu";
     w_city := "Chennai";
     w_state := "Tamil Nadu";
     w_timestamp := isoformat now;
     w_current := current;
     w_hourlyForecast := map (forecast_entry current_hour cloud_cover) forecast_steps;
     w_sunrise := replace_iso cal now 6 30 0;
     w_sunset := replace_iso cal now 18 30 0 |}.

Definition get_weather (cal : Calendar) (current_time init_now : R)
  (c now : Clock) (s : Sim) : option (Weather * Sim) :=
  match get_state current_time init_now c s with
  | None => None
  | Some (state, s') => Some (weather_of cal now state, s')
  end.

(** ** The singleton constructor *)

(** The class with its [_instance] attribute ([true]: an instance exists). *)
Record Class : Type := mkClass {
  _instance : bool;
  attrs : Sim
}.

(** [EMSSimulation()], with [now] the reading [_initialize_state] takes
    when it runs. *)
Definition __new__ (now : R) (cls : Class) : Class :=
  if _instance cls then cls
  else {| _instance := true; attrs := _initialize_state now |}.

(** A well-formed clock reading: an hour and a minute of the day. *)
Definition clock_ok (c : Clock) : Prop :=
  (0 <= now_hour c <= 23)%Z /\ (0 <= now_minute c <= 59)%Z.

(** The stored SOC is a number of hundredths between 10 and 100. *)
Definition soc_stored (soc : R) : Prop :=
  exists n : Z, (1000 <= n <= 10000)%Z /\ soc = IZR n / 100.



(** ** Sample inputs *)

(** A clock reading at noon. *)
Definition noon : Clock := mkClock 100 12 0 "2024-01-01T12:00:00"%string.

(** A clock reading at noon, at the epoch of the millisecond clock. *)
Definition noon0 : Clock := mkClock 0 12 0 "1970-01-01T12:00:00"%string.

(** A calendar that formats every date as the same text. *)
Definition calendar0 : Calendar :=
  mkCalendar (fun _ => "1970-01-01T00:00:00"%string)
             (fun _ _ => "1970-01-01T00:00:00"%string)
             (fun _ _ _ _ => "1970-01-01T00:00:00"%string).

(** * Properties *)

(** ** The builtins *)

Lemma lt_true (x y : R) : Py.lt x y = true <-> x < y.
Proof. unfold Py.lt; destruct (Rlt_dec x y); split; intros; try easy. Qed.

Lemma lt_false (x y : R) : Py.lt x y = false <-> y <= x.
Proof.
  unfold Py.lt; destruct (Rlt_dec x y); split; intros; try easy; lra.
Qed.

Lemma gt_true (x y : R) : Py.gt x y = true <-> x > y.
Proof. unfold Py.gt; rewrite lt_true; lra. Qed.

Lemma gt_false (x y : R) : Py.gt x y = false <-> x <= y.
Proof. unfold Py.gt; rewrite lt_false; lra. Qed.

Lemma le_true (x y : R) : Py.le x y = true <-> x <= y.
Proof. unfold Py.le; destruct (Rle_dec x y); split; intros; try easy. Qed.

Lemma le_false (x y : R) : Py.le x y = false <-> y < x.
Proof.
  unfold Py.le; destruct (Rle_dec x y); split; intros; try easy; lra.
Qed.

(** Case analysis on every comparison in sight, each case with its fact
    about the compared numbers. *)
Ltac py_compare :=
  repeat match goal with
  | |- context [Py.lt ?x ?y] =>
      let E := fresh "E" in
      destruct (Py.lt x y) eqn:E;
      [apply lt_true in E | apply lt_false in E]
  | |- context [Py.le ?x ?y] =>
      let E := fresh "E" in
      destruct (Py.le x y) eqn:E;
      [apply le_true in E | apply le_false in E]
  end.

Ltac py_arith :=
  unfold Py.min, Py.max, Py.abs, Py.gt in *; py_compare; simpl; try lra.

Lemma min_is_Rmin (a b : R) : Py.min a b = Rmin a b.
Proof. unfold Rmin; destruct (Rle_dec a b); py_arith. Qed.

Lemma max_is_Rmax (a b : R) : Py.max a b = Rmax a b.
Proof. unfold Rmax; destruct (Rle_dec a b); py_arith. Qed.

Lemma max_ge_l (a b : R) : a <= Py.max a b.
Proof. py_arith. Qed.

Lemma clamp_soc_bounds (soc : R) : 10 <= clamp_soc soc <= 100.
Proof. unfold clamp_soc; py_arith. Qed.

(** Rounding to an integer stays between any two integers that enclose
    the argument. *)
Lemma round_half_even_between (a b : Z) (x : R) :
  IZR a <= x <= IZR b -> (a <= Py.round_half_even x <= b)%Z.
Proof.
  intros [Ha Hb].
  pose proof (Zfloor_bound x) as [Hf1 Hf2].
  assert (Hfa : (a <= Zfloor x)%Z) by (apply Zfloor_lub; exact Ha).
  assert (Hfb : (Zfloor x <= b)%Z).
  { apply Z.lt_succ_r, lt_IZR. rewrite succ_IZR. lra. }
  assert (Hup : 1 / 2 <= x - IZR (Zfloor x) -> (Zfloor x + 1 <= b)%Z).
  { intros Hr. apply Z.le_succ_l, lt_IZR. lra. }
  unfold Py.round_half_even, Py.gt.
  py_compare; try lia.
  - assert (Zfloor x + 1 <= b)%Z by (apply Hup; lra). lia.
  - assert (Zfloor x + 1 <= b)%Z by (apply Hup; lra).
    destruct (Z.even (Zfloor x)); lia.
Qed.

Lemma round_between (a b : Z) (n : nat) (x : R) :
  IZR a / 10 ^ n <= x <= IZR b / 10 ^ n ->
  IZR a / 10 ^ n <= Py.round x n <= IZR b / 10 ^ n.
Proof.
  intros [Ha Hb].
  assert (Hp : 0 < 10 ^ n) by (apply pow_lt; lra).
  assert (Hx : IZR a <= x * 10 ^ n <= IZR b).
  { split.
    - apply (Rmult_le_compat_r (10 ^ n)) in Ha; [|lra].
      unfold Rdiv in Ha. rewrite Rmult_assoc, Rinv_l in Ha; lra.
    - apply (Rmult_le_compat_r (10 ^ n)) in Hb; [|lra].
      unfold Rdiv in Hb. rewrite Rmult_assoc, Rinv_l in Hb; lra. }
  apply round_half_even_between in Hx. destruct Hx as [H1 H2].
  apply IZR_le in H1, H2.
  unfold Py.round. split.
  - apply Rmult_le_compat_r; [left; apply Rinv_0_lt_compat; lra | exact H1].
  - apply Rmult_le_compat_r; [left; apply Rinv_0_lt_compat; lra | exact H2].
Qed.

Lemma round2_soc_bounds (x : R) : 10 <= x <= 100 -> 10 <= Py.round x 2 <= 100.
Proof.
  intros H.
  assert (H' : IZR 1000 / 10 ^ 2 <= Py.round x 2 <= IZR 10000 / 10 ^ 2).
  { apply round_between. simpl. lra. }
  simpl in H'. lra.
Qed.

(** ** Rounding *)

Lemma round_half_even_floor (x : R) :
  (Zfloor x <= Py.round_half_even x <= Zfloor x + 1)%Z.
Proof.
  unfold Py.round_half_even, Py.gt. py_compare; try lia.
  destruct (Z.even (Zfloor x)); lia.
Qed.

Lemma round_half_even_error (x : R) :
  - (1 / 2) <= IZR (Py.round_half_even x) - x <= 1 / 2.
Proof.
  pose proof (Zfloor_bound x) as [H1 H2].
  unfold Py.round_half_even, Py.gt. py_compare.
  - lra.
  - rewrite plus_IZR. lra.
  - destruct (Z.even (Zfloor x)); [|rewrite plus_IZR]; lra.
Qed.

Lemma round_half_even_near (n : Z) (x : R) :
  IZR n - 1 / 2 < x < IZR n + 1 / 2 -> Py.round_half_even x = n.
Proof.
  intros [H1 H2].
  pose proof (round_half_even_error x) as [E1 E2].
  assert (A : (n - 1 < Py.round_half_even x)%Z).
  { apply lt_IZR. rewrite minus_IZR. lra. }
  assert (B : (Py.round_half_even x < n + 1)%Z).
  { apply lt_IZR. rewrite plus_IZR. lra. }
  lia.
Qed.

Lemma round_half_even_mono (x y : R) :
  x <= y -> (Py.round_half_even x <= Py.round_half_even y)%Z.
Proof.
  intros H.
  pose proof (Zfloor_le x y H) as F.
  destruct (Z.eq_dec (Zfloor x) (Zfloor y)) as [E|E].
  - unfold Py.round_half_even, Py.gt. rewrite E.
    py_compare; try lia; try lra;
      destruct (Z.even (Zfloor y)); lia.
  - pose proof (round_half_even_floor x). pose proof (round_half_even_floor y). lia.
Qed.

Lemma pow10_pos (n : nat) : 0 < 10 ^ n.
Proof. apply pow_lt. lra. Qed.

Lemma round_mono (n : nat) (x y : R) : x <= y -> Py.round x n <= Py.round y n.
Proof.
  intros H. pose proof (pow10_pos n) as P. unfold Py.round.
  apply Rmult_le_compat_r; [left; apply Rinv_0_lt_compat; exact P|].
  apply IZR_le, round_half_even_mono.
  apply Rmult_le_compat_r; lra.
Qed.

Lemma round_zero (n : nat) : Py.round 0 n = 0.
Proof.
  unfold Py.round. rewrite Rmult_0_l.
  rewrite (round_half_even_near 0 0) by lra.
  unfold Rdiv. apply Rmult_0_l.
Qed.

Lemma round_nonneg (n : nat) (x : R) : 0 <= x -> 0 <= Py.round x n.
Proof. intros H. rewrite <- (round_zero n). apply round_mono, H. Qed.

(** Rounding to two decimals moves a number by at most 0.005. *)
Lemma round2_error (x : R) : - 0.005 <= Py.round x 2 - x <= 0.005.
Proof.
  pose proof (round_half_even_error (x * 10 ^ 2)) as [E1 E2].
  unfold Py.round. simpl in *. lra.
Qed.

(** Numbers with two decimals between two such bounds stay there. *)
Lemma round2_between (a b : Z) (x : R) :
  IZR a / 100 <= x <= IZR b / 100 -> IZR a / 100 <= Py.round x 2 <= IZR b / 100.
Proof.
  intros H.
  assert (H' : IZR a / 10 ^ 2 <= Py.round x 2 <= IZR b / 10 ^ 2).
  { apply round_between. simpl. lra. }
  simpl in H'. lra.
Qed.

Lemma round1_between (a b : Z) (x : R) :
  IZR a / 10 <= x <= IZR b / 10 -> IZR a / 10 <= Py.round x 1 <= IZR b / 10.
Proof.
  intros H.
  assert (H' : IZR a / 10 ^ 1 <= Py.round x 1 <= IZR b / 10 ^ 1).
  { apply round_between. simpl. lra. }
  simpl in H'. lra.
Qed.

(** ** The flows of one advance *)

Lemma flows_solar c d st : f_solar (flows c d st) = solar_power c.
Proof. unfold flows. destruct (battery_control _ _ _). reflexivity. Qed.

Lemma flows_load c d st : f_load (flows c d st) = load_power c.
Proof. unfold flows. destruct (battery_control _ _ _). reflexivity. Qed.

Lemma flows_battery c d st :
  f_battery (flows c d st) =
  fst (battery_control (solar_power c - load_power c) (batterySOC (kpis st)) d).
Proof. unfold flows. destruct (battery_control _ _ _). reflexivity. Qed.

Lemma flows_soc c d st :
  f_soc (flows c d st) =
  clamp_soc (snd (battery_control (solar_power c - load_power c) (batterySOC (kpis st)) d)).
Proof. unfold flows. destruct (battery_control _ _ _). reflexivity. Qed.

Lemma flows_grid c d st :
  f_grid (flows c d st) =
  f_load (flows c d st) - f_solar (flows c d st) - f_battery (flows c d st).
Proof. unfold flows. destruct (battery_control _ _ _). reflexivity. Qed.

(** ** Battery state of charge *)

(** C1.  After an advance the stored [batterySOC] is the rounding to two
    decimals of the clamped, updated SOC, and it lies in [10, 100]: for
    every elapsed time (so for every [delta_ms >= 0]), every clock reading
    and every prior state. *)
Theorem advance_batterySOC_in_range (c : Clock) (delta_ms : R) (st : State) :
  let updated :=
    snd (battery_control (solar_power c - load_power c) (batterySOC (kpis st)) delta_ms) in
  batterySOC (kpis (advance c delta_ms st)) = Py.round (clamp_soc updated) 2 /\
  10 <= clamp_soc updated <= 100 /\
  10 <= batterySOC (kpis (advance c delta_ms st)) <= 100.
Proof.
  intros updated.
  assert (E : batterySOC (kpis (advance c delta_ms st)) = Py.round (clamp_soc updated) 2).
  { unfold advance; cbn [kpis batterySOC]. rewrite flows_soc. reflexivity. }
  split; [exact E|]. split.
  - apply clamp_soc_bounds.
  - rewrite E. apply round2_soc_bounds, clamp_soc_bounds.
Qed.

(** ** Power balance *)

(** C3.  In every advance the grid power, before rounding, is the load
    power minus the solar power minus the battery power of that advance;
    the four stored powers are the roundings of these four values. *)
Theorem advance_power_balance (c : Clock) (delta_ms : R) (st : State) :
  let fl := flows c delta_ms st in
  f_grid fl = f_load fl - f_solar fl - f_battery fl /\
  f_load fl = load_power c /\
  f_solar fl = solar_power c /\
  f_battery fl =
    fst (battery_control (solar_power c - load_power c) (batterySOC (kpis st)) delta_ms) /\
  power (advance c delta_ms st) =
    mkPower (Py.round (f_grid fl) 2) (Py.round (f_solar fl) 2)
            (Py.round (f_battery fl) 2) (Py.round (f_load fl) 2).
Proof.
  intros fl. unfold fl.
  split; [apply flows_grid|].
  split; [apply flows_load|].
  split; [apply flows_solar|].
  split; [apply flows_battery|].
  reflexivity.
Qed.

(** ** Battery control *)

(** C6.  The three cases of the battery controller, with [min] and [max]
    the mathematical ones, and its place in an advance: the controller is
    run on [net = solar_power - load_power] and the stored SOC, its power is
    the battery power of the advance and its SOC is clamped afterwards. *)
Theorem battery_control_cases (net soc delta_ms : R) :
  let battery_power := fst (battery_control net soc delta_ms) in
  let soc' := snd (battery_control net soc delta_ms) in
  (net > 5 /\ soc < 95 ->
     battery_power = Rmin (net * 0.8) 25 /\
     soc' = soc + (battery_power * delta_ms / 1000 / 3600) / 100 * 2) /\
  (~ (net > 5 /\ soc < 95) /\ net < -5 /\ soc > 15 ->
     battery_power = Rmax (net * 0.8) (-25) /\
     soc' = soc + (battery_power * delta_ms / 1000 / 3600) / 100 * 2) /\
  (~ (net > 5 /\ soc < 95) /\ ~ (net < -5 /\ soc > 15) ->
     battery_power = 0 /\ soc' = soc) /\
  (forall (c : Clock) (st : State),
     net = solar_power c - load_power c ->
     soc = batterySOC (kpis st) ->
     f_battery (flows c delta_ms st) = battery_power /\
     f_soc (flows c delta_ms st) = clamp_soc soc').
Proof.
  intros battery_power soc'. unfold battery_power, soc', battery_control.
  repeat split.
  - destruct H as [H1 H2].
    apply gt_true in H1. apply lt_true in H2. rewrite H1, H2. simpl.
    apply min_is_Rmin.
  - destruct H as [H1 H2].
    apply gt_true in H1. apply lt_true in H2. rewrite H1, H2. reflexivity.
  - destruct H as (H0 & H1 & H2).
    assert (E : Py.gt net 5 && Py.lt soc 95 = false).
    { apply andb_false_iff. left. apply gt_false. lra. }
    rewrite E. apply lt_true in H1. apply gt_true in H2. rewrite H1, H2. simpl.
    apply max_is_Rmax.
  - destruct H as (H0 & H1 & H2).
    assert (E : Py.gt net 5 && Py.lt soc 95 = false).
    { apply andb_false_iff. left. apply gt_false. lra. }
    rewrite E. apply lt_true in H1. apply gt_true in H2. rewrite H1, H2. reflexivity.
  - destruct H as (H0 & H1).
    destruct (Py.gt net 5 && Py.lt soc 95) eqn:E1.
    { apply andb_true_iff in E1. destruct E1 as [E1 E2].
      apply gt_true in E1. apply lt_true in E2. tauto. }
    destruct (Py.lt net (-5) && Py.gt soc 15) eqn:E2.
    { apply andb_true_iff in E2. destruct E2 as [E2 E3].
      apply lt_true in E2. apply gt_true in E3. tauto. }
    reflexivity.
  - destruct H as (H0 & H1).
    destruct (Py.gt net 5 && Py.lt soc 95) eqn:E1.
    { apply andb_true_iff in E1. destruct E1 as [E1 E2].
      apply gt_true in E1. apply lt_true in E2. tauto. }
    destruct (Py.lt net (-5) && Py.gt soc 15) eqn:E2.
    { apply andb_true_iff in E2. destruct E2 as [E2 E3].
      apply lt_true in E2. apply gt_true in E3. tauto. }
    reflexivity.
  - subst. apply flows_battery.
  - subst. apply flows_soc.
Qed.

Lemma battery_control_cases_witness :
  (10 > 5 /\ 50 < 95) /\
  fst (battery_control 10 50 3600000) = Rmin (10 * 0.8) 25 /\
  (~ (-10 > 5 /\ 50 < 95) /\ -10 < -5 /\ 50 > 15) /\
  fst (battery_control (-10) 50 3600000) = Rmax (-10 * 0.8) (-25) /\
  (~ (0 > 5 /\ 50 < 95) /\ ~ (0 < -5 /\ 50 > 15)) /\
  battery_control 0 50 3600000 = (0, 50).
Proof.
  pose proof (battery_control_cases 10 50 3600000) as (H1 & _).
  pose proof (battery_control_cases (-10) 50 3600000) as (_ & H2 & _).
  pose proof (battery_control_cases 0 50 3600000) as (_ & _ & H3 & _).
  cbv zeta in H1, H2, H3.
  assert (C1 : 10 > 5 /\ 50 < 95) by lra.
  assert (C2 : ~ (-10 > 5 /\ 50 < 95) /\ -10 < -5 /\ 50 > 15) by lra.
  assert (C3 : ~ (0 > 5 /\ 50 < 95) /\ ~ (0 < -5 /\ 50 > 15)) by lra.
  split; [exact C1|]. split; [exact (proj1 (H1 C1))|].
  split; [exact C2|]. split; [exact (proj1 (H2 C2))|].
  split; [exact C3|].
  destruct (H3 C3) as [E1 E2].
  rewrite (surjective_pairing (battery_control 0 50 3600000)), E1, E2.
  reflexivity.
Defined.

(** ** The gate of [get_state] *)

Lemma get_state_total (t ti : R) (c : Clock) (s : Sim) :
  exists st s', get_state t ti c s = Some (st, s') /\ _state s' = Some st.
Proof.
  unfold get_state.
  destruct (_state s) as [st|] eqn:Es.
  - destruct (Py.gt _ _).
    + unfold _advance_simulation. rewrite Es. cbn. eauto.
    + rewrite Es. eauto.
  - cbn [_initialize_state _last_update].
    destruct (Py.gt _ _); cbn; eauto.
Qed.

(** Every state [get_state] hands out is the stored one or one advance
    of it. *)
Lemma get_state_step (t ti : R) (c : Clock) (s : Sim) (st0 st : State) (s' : Sim) :
  _state s = Some st0 ->
  get_state t ti c s = Some (st, s') ->
  st = st0 \/ st = advance c (t - _last_update s) st0.
Proof.
  unfold get_state. intros Es. rewrite Es.
  destruct (Py.gt _ _).
  - unfold _advance_simulation. rewrite Es. cbn. intros [= <- _]. now right.
  - rewrite Es. intros [= <- _]. now left.
Qed.

Lemma advance_grows_series (c : Clock) (delta_ms : R) (now : R) :
  List.length (grid_series (charts (advance c delta_ms (initial_state now)))) = 1%nat.
Proof. reflexivity. Qed.

(** C2, as stated, fails: with exactly 100 ms elapsed since the last
    update [get_state] returns the cached state and does not advance. *)
Lemma get_state_at_100ms_not_advanced :
  100 - _last_update (_initialize_state 0) >= 100 /\
  get_state 100 0 noon (_initialize_state 0)
    = Some (initial_state 0, _initialize_state 0) /\
  get_state 100 0 noon (_initialize_state 0)
    <> Some (advance noon 100 (initial_state 0),
             mkSim (Some (advance noon 100 (initial_state 0))) (time_ms noon)).
Proof.
  assert (E : get_state 100 0 noon (_initialize_state 0)
              = Some (initial_state 0, _initialize_state 0)).
  { unfold get_state. cbn [_initialize_state _state _last_update].
    replace (Py.gt (100 - 0) 100) with false; [reflexivity|].
    symmetry. apply gt_false. lra. }
  split; [cbn; lra|]. split; [exact E|].
  rewrite E. intros H.
  assert (H' := f_equal (fun r => match r with
                                  | Some (st, _) => List.length (grid_series (charts st))
                                  | None => 0%nat
                                  end) H).
  cbv beta iota in H'. rewrite advance_grows_series in H'. discriminate H'.
Qed.

(** C2, amended.  [get_state] first creates the state when there is none.
    Then, with [delta] the time elapsed since the last update: when
    [delta > 100] the state is advanced exactly once, by [delta], and the
    advanced state is returned and stored; when [delta <= 100] the cached
    state is returned and nothing changes. *)
Theorem get_state_gate (t ti : R) (c : Clock) (s : Sim) (st : State) (last : R) :
  (match _state s with
   | None => _initialize_state ti
   | Some _ => s
   end) = mkSim (Some st) last ->
  (t - last > 100 ->
     get_state t ti c s
       = Some (advance c (t - last) st,
               mkSim (Some (advance c (t - last) st)) (time_ms c))) /\
  (t - last <= 100 ->
     get_state t ti c s = Some (st, mkSim (Some st) last)).
Proof.
  intros E. unfold get_state. rewrite E. cbn [_last_update _state].
  split; intros H.
  - apply gt_true in H. rewrite H. reflexivity.
  - apply gt_false in H. rewrite H. reflexivity.
Qed.

Lemma get_state_gate_witness :
  get_state 101 0 noon (_initialize_state 0)
    = Some (advance noon (101 - 0) (initial_state 0),
            mkSim (Some (advance noon (101 - 0) (initial_state 0))) (time_ms noon)) /\
  get_state 100 0 noon (_initialize_state 0)
    = Some (initial_state 0, mkSim (Some (initial_state 0)) 0) /\
  get_state 7 5 noon (mkSim None 0)
    = Some (initial_state 5, mkSim (Some (initial_state 5)) 5).
Proof.
  split; [|split].
  - apply (get_state_gate 101 0 noon (_initialize_state 0) (initial_state 0) 0 eq_refl).
    lra.
  - apply (get_state_gate 100 0 noon (_initialize_state 0) (initial_state 0) 0 eq_refl).
    lra.
  - apply (get_state_gate 7 5 noon (mkSim None 0) (initial_state 5) 5 eq_refl).
    lra.
Defined.

(** ** The accumulators *)

Lemma solar_factor_nonneg (hour : R) : 0 <= solar_factor hour.
Proof.
  unfold solar_factor.
  destruct (Py.le 6 hour) eqn:E1; [|simpl; lra].
  destruct (Py.le hour 18) eqn:E2; [|simpl; lra].
  apply le_true in E1, E2. simpl.
  pose proof PI_RGT_0.
  apply sin_ge_0; nra.
Qed.

Lemma solar_power_nonneg (c : Clock) : 0 <= solar_power c.
Proof.
  unfold solar_power.
  pose proof (solar_factor_nonneg (hour_of c)).
  pose proof (SIN_bound (time_ms c / 10000)).
  apply Rmult_le_pos; [apply Rmult_le_pos|]; lra.
Qed.

Lemma load_power_pos (c : Clock) : 0 < load_power c.
Proof.
  unfold load_power, base_load, time_factor.
  pose proof (SIN_bound ((hour_of c - 6) / 12 * PI)).
  pose proof (SIN_bound (time_ms c / 8000)).
  apply Rmult_lt_0_compat; [apply Rmult_lt_0_compat|]; lra.
Qed.

Lemma advance_accumulators (c : Clock) (delta_ms : R) (st : State) :
  0 <= delta_ms ->
  energyToday (kpis st) <= energyToday (kpis (advance c delta_ms st)) /\
  peakPowerToday (kpis st) <= peakPowerToday (kpis (advance c delta_ms st)) /\
  costSavings (kpis st) <= costSavings (kpis (advance c delta_ms st)) /\
  carbonAvoided (kpis st) <= carbonAvoided (kpis (advance c delta_ms st)).
Proof.
  intros Hd.
  unfold advance; cbn [kpis energyToday peakPowerToday costSavings carbonAvoided].
  rewrite flows_load, flows_solar.
  pose proof (solar_power_nonneg c) as Hs.
  pose proof (load_power_pos c) as Hl.
  assert (Hh : 0 <= delta_ms / 1000 / 3600) by lra.
  repeat split.
  - assert (0 <= load_power c * (delta_ms / 1000 / 3600)) by (apply Rmult_le_pos; lra).
    lra.
  - apply max_ge_l.
  - assert (0 <= solar_power c * (delta_ms / 1000 / 3600)) by (apply Rmult_le_pos; lra).
    lra.
  - assert (0 <= solar_power c * (delta_ms / 1000 / 3600)) by (apply Rmult_le_pos; lra).
    lra.
Qed.

Lemma run_app (steps1 steps2 : list step) (st : State) :
  run (steps1 ++ steps2) st = run steps2 (run steps1 st).
Proof. unfold run. apply fold_left_app. Qed.

Lemma run_cons (c : Clock) (delta_ms : R) (steps : list step) (st : State) :
  run ((c, delta_ms) :: steps) st = run steps (advance c delta_ms st).
Proof. reflexivity. Qed.

(** The states [get_state] hands out are the runs from an initial state:
    a call on a stored run returns that run or the run extended by one
    advance, and a call without a state returns a run from the state it
    creates. *)
Lemma get_state_run (t ti : R) (c : Clock) (s : Sim) (st : State) (s' : Sim)
  (steps : list step) (now : R) :
  _state s = Some (run steps (initial_state now)) ->
  get_state t ti c s = Some (st, s') ->
  st = run steps (initial_state now) \/
  st = run (steps ++ [(c, t - _last_update s)]) (initial_state now).
Proof.
  intros Es E.
  destruct (get_state_step t ti c s _ st s' Es E) as [->| ->].
  - now left.
  - right. rewrite run_app. reflexivity.
Qed.

Lemma get_state_fresh (t ti : R) (c : Clock) (s : Sim) (st : State) (s' : Sim) :
  _state s = None ->
  get_state t ti c s = Some (st, s') ->
  st = run [] (initial_state ti) \/ st = run [(c, t - ti)] (initial_state ti).
Proof.
  unfold get_state. intros Es. rewrite Es.
  cbn [_initialize_state _last_update _state].
  destruct (Py.gt _ _).
  - cbn. intros [= <- _]. now right.
  - cbn. intros [= <- _]. now left.
Qed.

(** C4.  Along every sequence of advances, each with [delta_ms >= 0], the
    four accumulators never decrease: their values after any prefix of the
    sequence are at most their values after the whole of it. *)
Theorem accumulators_non_decreasing (steps1 steps2 : list step) (st : State) :
  Forall (fun s : step => 0 <= snd s) steps2 ->
  let before := kpis (run steps1 st) in
  let after := kpis (run (steps1 ++ steps2) st) in
  energyToday before <= energyToday after /\
  peakPowerToday before <= peakPowerToday after /\
  costSavings before <= costSavings after /\
  carbonAvoided before <= carbonAvoided after.
Proof.
  intros H. cbv zeta. rewrite run_app.
  generalize (run steps1 st). clear steps1 st.
  induction H as [|[c d] steps Hd _ IH]; intros st.
  - cbn. lra.
  - rewrite run_cons. cbn [snd] in Hd.
    pose proof (advance_accumulators c d st Hd) as (A1 & A2 & A3 & A4).
    pose proof (IH (advance c d st)) as (B1 & B2 & B3 & B4).
    lra.
Qed.

Lemma accumulators_non_decreasing_witness :
  Forall (fun s : step => 0 <= snd s) [(noon, 3600000); (noon, 0)] /\
  energyToday (kpis (run [(noon, 500)] (initial_state 0)))
    <= energyToday (kpis (run ([(noon, 500)] ++ [(noon, 3600000); (noon, 0)])
                              (initial_state 0))).
Proof.
  assert (H : Forall (fun s : step => 0 <= snd s) [(noon, 3600000); (noon, 0)]).
  { repeat constructor; cbn; lra. }
  split; [exact H|].
  exact (proj1 (accumulators_non_decreasing [(noon, 500)] _ (initial_state 0) H)).
Defined.

(** ** The chart series *)

Lemma lastn_all {A : Type} (n : nat) (l : list A) :
  (List.length l <= n)%nat -> lastn n l = l.
Proof.
  intros H. unfold lastn.
  replace (List.length l - n)%nat with 0%nat by lia. reflexivity.
Qed.

Lemma lastn_length {A : Type} (n : nat) (l : list A) :
  List.length (lastn n l) = Nat.min (List.length l) n.
Proof. unfold lastn. rewrite length_skipn. lia. Qed.

Lemma lastn_app_lastn {A : Type} (n : nat) (l l' : list A) :
  lastn n (lastn n l ++ l') = lastn n (l ++ l').
Proof.
  destruct (Nat.le_gt_cases (List.length l) n) as [H|H].
  - rewrite (lastn_all n l H). reflexivity.
  - unfold lastn at 1 3.
    rewrite !length_app, lastn_length.
    replace (Nat.min (List.length l) n + List.length l' - n)%nat
      with (List.length l') by lia.
    replace (List.length l + List.length l' - n)%nat
      with (List.length l' + (List.length l - n))%nat by lia.
    rewrite <- skipn_skipn. f_equal.
    rewrite skipn_app.
    replace (List.length l - n - List.length l)%nat with 0%nat by lia.
    reflexivity.
Qed.

Lemma keep_last_100_lastn (l : list Point) :
  (List.length l <= 101)%nat -> keep_last_100 l = lastn 100 l.
Proof.
  intros H. unfold keep_last_100, lastn.
  destruct (Nat.ltb_spec 100 (List.length l)) as [H1|H1].
  - replace (List.length l - 100)%nat with 1%nat by lia.
    destruct l; reflexivity.
  - replace (List.length l - 100)%nat with 0%nat by lia. reflexivity.
Qed.

(** What the chart loop leaves in the series [k]. *)
Lemma advance_series (k : key) (c : Clock) (delta_ms : R) (st : State) :
  charts_get k (charts (advance c delta_ms st)) =
  keep_last_100
    (charts_get k (charts st)
       ++ [mkPoint (isoformat c) (power_get k (power (advance c delta_ms st)))]).
Proof.
  unfold advance; cbn [charts power].
  destruct (charts st); destruct k; reflexivity.
Qed.

Lemma appended_length (k : key) (steps : list step) (st : State) :
  List.length (appended k steps st) = List.length steps.
Proof.
  revert st. induction steps as [|[c d] steps IH]; intros st; cbn; [|rewrite IH];
    reflexivity.
Qed.

(** From a state whose series holds at most 100 samples, a run leaves the
    last 100 of the old samples followed by the appended ones. *)
Lemma run_series (k : key) (steps : list step) (st : State) :
  (List.length (charts_get k (charts st)) <= 100)%nat ->
  charts_get k (charts (run steps st)) =
  lastn 100 (charts_get k (charts st) ++ appended k steps st).
Proof.
  revert st. induction steps as [|[c d] steps IH]; intros st H.
  - cbn [run fold_left appended]. rewrite app_nil_r, lastn_all; trivial.
  - rewrite run_cons. cbn [appended].
    assert (E : charts_get k (charts (advance c d st)) =
                lastn 100 (charts_get k (charts st)
                  ++ [mkPoint (isoformat c) (power_get k (power (advance c d st)))])).
    { rewrite advance_series. apply keep_last_100_lastn.
      rewrite length_app. cbn. lia. }
    rewrite IH.
    + rewrite E, lastn_app_lastn, <- app_assoc. reflexivity.
    + rewrite E, lastn_length. lia.
Qed.

(** C5.  In every state reached from the initial one by advances, each
    series holds at most 100 samples and is the last 100, in the order of
    their appending, of all the samples appended so far; a further advance
    appends its sample at the end and, when the series was full, drops the
    sample at index 0. *)
Theorem chart_series_bounded_fifo
  (k : key) (steps : list step) (now : R) (c : Clock) (delta_ms : R) :
  let st := run steps (initial_state now) in
  let series := charts_get k (charts st) in
  let sample := mkPoint (isoformat c) (power_get k (power (advance c delta_ms st))) in
  (List.length series <= 100)%nat /\
  series = lastn 100 (appended k steps (initial_state now)) /\
  charts_get k (charts (advance c delta_ms st)) =
    (if (List.length series <? 100)%nat
     then series ++ [sample]
     else tl series ++ [sample]) /\
  (List.length (charts_get k (charts (advance c delta_ms st))) <= 100)%nat.
Proof.
  intros st series sample.
  assert (E : series = lastn 100 (appended k steps (initial_state now))).
  { unfold series, st. rewrite run_series.
    - destruct k; reflexivity.
    - destruct k; cbn; lia. }
  assert (L : (List.length series <= 100)%nat).
  { rewrite E, lastn_length. lia. }
  assert (S : charts_get k (charts (advance c delta_ms st)) =
              (if (List.length series <? 100)%nat
               then series ++ [sample]
               else tl series ++ [sample])).
  { rewrite advance_series. fold series sample. unfold keep_last_100.
    rewrite length_app. cbn [List.length].
    destruct (Nat.ltb_spec (List.length series) 100) as [H|H].
    - destruct (Nat.ltb_spec 100 (List.length series + 1)); [lia|reflexivity].
    - destruct (Nat.ltb_spec 100 (List.length series + 1)); [|lia].
      destruct series; [cbn in H; lia | reflexivity]. }
  repeat split; trivial.
  rewrite S.
  destruct (Nat.ltb_spec (List.length series) 100) as [H|H].
  - rewrite length_app. cbn. lia.
  - destruct series; cbn in *; [lia|]. rewrite length_app. cbn. lia.
Qed.

Lemma run_series_length (k : key) (steps : list step) (now : R) :
  List.length (charts_get k (charts (run steps (initial_state now))))
  = Nat.min (List.length steps) 100.
Proof.
  rewrite run_series.
  - replace (charts_get k (charts (initial_state now))) with (@nil Point)
      by (destruct k; reflexivity).
    cbn [app]. rewrite lastn_length, appended_length. reflexivity.
  - destruct k; cbn; lia.
Qed.

(** C9.  Initially and after every advance the four series have the same
    length, the number of advances so far capped at 100.  So have the four
    series [get_charts] returns: called on a class without a state, or
    holding a state reached from an initial one by advances, it returns a
    report whose four series are those of the state [get_state] hands it,
    all of one length, and it leaves such a state in the class again. *)
Theorem chart_series_equal_length
  (cal : Calendar) (t ti : R) (c : Clock) (s : Sim) (steps : list step) (now : R) :
  let st := run steps (initial_state now) in
  (forall k : key,
     List.length (charts_get k (charts st)) = Nat.min (List.length steps) 100) /\
  (forall k k' : key,
     List.length (charts_get k (charts st)) = List.length (charts_get k' (charts st))) /\
  (_state s = None \/ _state s = Some st ->
   exists (report : ChartsReport) (s' : Sim) (steps' : list step) (now' : R),
     get_state t ti c s = Some (run steps' (initial_state now'), s') /\
     get_charts cal t ti c s = Some (report, s') /\
     _state s' = Some (run steps' (initial_state now')) /\
     (forall k : key,
        report_series k report
        = charts_get k (charts (run steps' (initial_state now')))) /\
     (forall k : key,
        List.length (report_series k report) = Nat.min (List.length steps') 100) /\
     List.length (ch_grid report) = List.length (ch_solar report) /\
     List.length (ch_solar report) = List.length (ch_load report) /\
     List.length (ch_load report) = List.length (ch_battery report)).
Proof.
  intros st.
  split; [intros k; apply run_series_length|].
  split; [intros k k'; unfold st; rewrite !run_series_length; reflexivity|].
  intros H.
  destruct (get_state_total t ti c s) as (st' & s' & E & Es').
  assert (R0 : exists steps' now', st' = run steps' (initial_state now')).
  { destruct H as [H|H].
    - destruct (get_state_fresh t ti c s st' s' H E) as [->| ->]; eauto.
    - destruct (get_state_run t ti c s st' s' steps now H E) as [->| ->]; eauto. }
  destruct R0 as (steps' & now' & ->).
  exists (charts_of cal (run steps' (initial_state now'))), s', steps', now'.
  assert (S : forall k : key,
             report_series k (charts_of cal (run steps' (initial_state now')))
             = charts_get k (charts (run steps' (initial_state now'))))
    by (intros k; destruct k; reflexivity).
  assert (L : forall k : key,
             List.length
               (report_series k (charts_of cal (run steps' (initial_state now'))))
             = Nat.min (List.length steps') 100)
    by (intros k; rewrite S; apply run_series_length).
  split; [exact E|].
  split; [unfold get_charts; rewrite E; reflexivity|].
  split; [exact Es'|].
  split; [exact S|].
  split; [exact L|].
  pose proof (L Grid) as LG. pose proof (L Solar) as LS.
  pose proof (L Load) as LL. pose proof (L Battery) as LB.
  cbn [report_series] in LG, LS, LL, LB.
  repeat split; congruence.
Qed.

Lemma chart_series_equal_length_witness :
  (_state (_initialize_state 0) = None \/
   _state (_initialize_state 0) = Some (run [] (initial_state 0))) /\
  exists (report : ChartsReport) (s' : Sim),
    get_charts calendar0 250 0 noon (_initialize_state 0) = Some (report, s') /\
    List.length (ch_grid report) = List.length (ch_solar report) /\
    List.length (ch_solar report) = List.length (ch_load report) /\
    List.length (ch_load report) = List.length (ch_battery report).
Proof.
  assert (H : _state (_initialize_state 0) = None \/
              _state (_initialize_state 0) = Some (run [] (initial_state 0)))
    by (right; reflexivity).
  split; [exact H|].
  destruct (proj2 (proj2 (chart_series_equal_length
                            calendar0 250 0 noon (_initialize_state 0) [] 0)) H)
    as (report & s' & steps' & now' & _ & E & _ & _ & _ & L1 & L2 & L3).
  exists report, s'. repeat split; assumption.
Defined.

(** ** Alerts *)

Section Alerts.

Local Open Scope string_scope.

Variable now_iso : string.

Lemma critical_alert_kind (soc : R) (cat sev : string) :
  is_alert cat sev (battery_critical_alert now_iso soc)
  = String.eqb cat "battery" && String.eqb sev "critical".
Proof. reflexivity. Qed.

Lemma warning_alert_kind (soc : R) (cat sev : string) :
  is_alert cat sev (battery_warning_alert now_iso soc)
  = String.eqb cat "battery" && String.eqb sev "warning".
Proof. reflexivity. Qed.

Lemma grid_alert_kind (g : R) (cat sev : string) :
  is_alert cat sev (grid_high_alert now_iso g)
  = String.eqb cat "grid" && String.eqb sev "warning".
Proof. reflexivity. Qed.

Lemma critical_alert_category (soc : R) (cat : string) :
  has_category cat (battery_critical_alert now_iso soc) = String.eqb cat "battery".
Proof. reflexivity. Qed.

Lemma warning_alert_category (soc : R) (cat : string) :
  has_category cat (battery_warning_alert now_iso soc) = String.eqb cat "battery".
Proof. reflexivity. Qed.

Lemma grid_alert_category (g : R) (cat : string) :
  has_category cat (grid_high_alert now_iso g) = String.eqb cat "grid".
Proof. reflexivity. Qed.

(** The alerts computed from a state. *)
Lemma alerts_of_thresholds (state : State) :
  let alerts := alerts_of now_iso state in
  let soc := batterySOC (kpis state) in
  let grid_power := grid (power state) in
  (existsb (is_alert "battery" "critical") alerts = true <-> soc < 20) /\
  (existsb (is_alert "battery" "warning") alerts = true <-> 20 <= soc < 30) /\
  (existsb (has_category "battery") alerts = false <-> soc >= 30) /\
  (existsb (is_alert "grid" "warning") alerts = true <-> Rabs grid_power > 50) /\
  (List.length (filter (has_category "battery") alerts) <= 1)%nat /\
  (List.length (filter (has_category "grid") alerts) <= 1)%nat.
Proof.
  cbv zeta. unfold alerts_of, Py.gt, Py.abs.
  py_compare;
    cbn [app existsb filter];
    rewrite ?critical_alert_kind, ?warning_alert_kind, ?grid_alert_kind,
      ?critical_alert_category, ?warning_alert_category, ?grid_alert_category;
    cbn;
    (repeat split; intros; try lia; try lra; try discriminate).
Qed.

End Alerts.

(** C7.  [get_alerts] returns, for the state [get_state] hands it: a
    critical battery alert exactly when [batterySOC < 20], a warning battery
    alert exactly when [20 <= batterySOC < 30], no battery alert exactly when
    [batterySOC >= 30], a grid warning exactly when [|grid| > 50]; so at most
    one battery alert and at most one grid alert. *)
Theorem get_alerts_thresholds (t ti : R) (c now : Clock) (s : Sim) :
  exists (state : State) (s' : Sim) (alerts : list dict),
    get_state t ti c s = Some (state, s') /\
    get_alerts t ti c now s = Some (alerts, s') /\
    let soc := batterySOC (kpis state) in
    let grid_power := grid (power state) in
    (existsb (is_alert "battery" "critical") alerts = true <-> soc < 20) /\
    (existsb (is_alert "battery" "warning") alerts = true <-> 20 <= soc < 30) /\
    (existsb (has_category "battery") alerts = false <-> soc >= 30) /\
    (existsb (is_alert "grid" "warning") alerts = true <-> Rabs grid_power > 50) /\
    (List.length (filter (has_category "battery") alerts) <= 1)%nat /\
    (List.length (filter (has_category "grid") alerts) <= 1)%nat.
Proof.
  destruct (get_state_total t ti c s) as (state & s' & E & _).
  exists state, s', (alerts_of (isoformat now) state).
  split; [exact E|].
  split; [unfold get_alerts; rewrite E; reflexivity|].
  apply alerts_of_thresholds.
Qed.

(** ** Sites *)

Lemma sites_of_length (now_iso : string) (state : State) :
  List.length (sites_of now_iso state) = 6%nat.
Proof. reflexivity. Qed.

(** The entry at position [idx] is the loop body run on the index [idx]
    and the static site at that position. *)
Lemma sites_of_nth (now_iso : string) (state : State) (idx : nat) :
  (idx < 6)%nat ->
  exists site : Site,
    nth_error sites idx = Some site /\
    nth_error (sites_of now_iso state) idx
      = Some (site_entry now_iso state (Z.of_nat idx) site).
Proof.
  intros H.
  do 6 (destruct idx as [|idx]; [eexists; split; reflexivity|]).
  lia.
Qed.

Lemma site_soc_bounds (state : State) (idx : Z) : 10 <= site_soc state idx <= 100.
Proof. unfold site_soc. py_arith. Qed.

Lemma site_current_power_scaled (state : State) (idx : Z) :
  site_current_power state idx = load (power state) * ((0.8 + IZR idx * 0.05) / 6).
Proof.
  unfold site_current_power.
  replace (INR (List.length sites)) with 6 by (cbn; lra).
  field.
Qed.

(** Within the gate nothing is advanced. *)
Lemma get_state_cached (t ti : R) (c : Clock) (s : Sim) (st : State) :
  _state s = Some st ->
  t - _last_update s <= 100 ->
  get_state t ti c s = Some (st, s).
Proof.
  intros Es H. unfold get_state. rewrite Es.
  apply gt_false in H. rewrite H, Es. reflexivity.
Qed.

(** C8, as stated, fails: the returned entries hold no capacity.  The
    first static site has capacity 1200; the first returned entry has no
    ["capacity"] key at all. *)
Lemma get_sites_entry_without_capacity :
  get_sites 0 0 noon noon (_initialize_state 0)
    = Some (sites_of (isoformat noon) (initial_state 0), _initialize_state 0) /\
  option_map site_capacity (nth_error sites 0) = Some 1200%Z /\
  option_map (dict_get "capacity")
             (nth_error (sites_of (isoformat noon) (initial_state 0)) 0)
    = Some None /\
  option_map (dict_get "capacity")
             (nth_error (sites_of (isoformat noon) (initial_state 0)) 0)
    <> Some (Some (PInt 1200)).
Proof.
  split.
  - unfold get_sites.
    rewrite (get_state_cached 0 0 noon (_initialize_state 0) (initial_state 0)).
    + reflexivity.
    + reflexivity.
    + cbn. lra.
  - split; [reflexivity|]. split; [reflexivity|]. discriminate.
Qed.

Lemma round2_nearest_hundredth (x : R) :
  exists n : Z, Py.round x 2 = IZR n / 100 /\ - 0.005 <= Py.round x 2 - x <= 0.005.
Proof.
  exists (Py.round_half_even (x * 10 ^ 2)).
  split; [unfold Py.round; simpl; f_equal; lra | apply round2_error].
Qed.

(** C8, amended.  [get_sites] returns exactly 6 entries.  The entry at
    index [idx] holds the id and the name of the static site at [idx] under
    the keys siteId, name, currentPower, soc, efficiency, status and
    timestamp, so no capacity; its currentPower is the state's load power
    scaled by [(0.8 + idx * 0.05) / 6] and rounded to two decimals: a number
    of hundredths at most 0.005 away from the scaled value. *)
Theorem get_sites_entries (t ti : R) (c now : Clock) (s : Sim) :
  exists (state : State) (s' : Sim) (result : list dict),
    get_state t ti c s = Some (state, s') /\
    get_sites t ti c now s = Some (result, s') /\
    List.length result = 6%nat /\
    forall idx : nat,
      (idx < 6)%nat ->
      exists (site : Site) (entry : dict) (current_power : R) (n : Z),
        nth_error sites idx = Some site /\
        nth_error result idx = Some entry /\
        List.map fst entry
          = ["siteId"; "name"; "currentPower"; "soc"; "efficiency"; "status";
             "timestamp"]%string /\
        dict_get "siteId" entry = Some (PStr (site_id site)) /\
        dict_get "name" entry = Some (PStr (site_name site)) /\
        dict_get "capacity" entry = None /\
        dict_get "currentPower" entry = Some (PFloat current_power) /\
        current_power = IZR n / 100 /\
        - 0.005
          <= current_power
             - load (power state) * ((0.8 + IZR (Z.of_nat idx) * 0.05) / 6)
          <= 0.005.
Proof.
  destruct (get_state_total t ti c s) as (state & s' & E & _).
  exists state, s', (sites_of (isoformat now) state).
  split; [exact E|].
  split; [unfold get_sites; rewrite E; reflexivity|].
  split; [apply sites_of_length|].
  intros idx H.
  destruct (sites_of_nth (isoformat now) state idx H) as (site & E1 & E2).
  destruct (round2_nearest_hundredth (site_current_power state (Z.of_nat idx)))
    as (n & N1 & N2).
  exists site, (site_entry (isoformat now) state (Z.of_nat idx) site),
    (Py.round (site_current_power state (Z.of_nat idx)) 2), n.
  rewrite <- site_current_power_scaled.
  split; [exact E1|]. split; [exact E2|].
  split; [reflexivity|]. split; [reflexivity|]. split; [reflexivity|].
  split; [reflexivity|]. split; [reflexivity|].
  split; [exact N1 | exact N2].
Qed.

Lemma get_sites_entries_witness :
  (2 < 6)%nat /\
  exists (state : State) (s' : Sim) (result : list dict) (entry : dict)
         (current_power : R),
    get_sites 0 0 noon noon (_initialize_state 0) = Some (result, s') /\
    nth_error result 2 = Some entry /\
    dict_get "name" entry = Some (PStr "Pune Office Complex") /\
    dict_get "capacity" entry = None /\
    dict_get "currentPower" entry = Some (PFloat current_power) /\
    - 0.005
      <= current_power - load (power state) * ((0.8 + IZR (Z.of_nat 2) * 0.05) / 6)
      <= 0.005.
Proof.
  assert (H : (2 < 6)%nat) by lia.
  split; [exact H|].
  destruct (get_sites_entries 0 0 noon noon (_initialize_state 0))
    as (state & s' & result & _ & E & _ & F).
  destruct (F 2%nat H)
    as (site & entry & x & n & E1 & E2 & _ & _ & E3 & E4 & E5 & _ & E6).
  exists state, s', result, entry, x.
  injection E1 as <-.
  repeat split; try assumption; apply E6.
Defined.

(** C10.  In the entry [get_sites] returns at index [idx], the per-site
    SOC, the global [batterySOC] plus [(idx - 3) * 2] clamped to
    [10, 100], lies in [10, 100], and so does its rounding to one decimal
    stored under soc; the status is online exactly when the per-site SOC
    exceeds 20, and warning otherwise. *)
Theorem get_sites_soc_status (t ti : R) (c now : Clock) (s : Sim) :
  exists (state : State) (s' : Sim) (result : list dict),
    get_state t ti c s = Some (state, s') /\
    get_sites t ti c now s = Some (result, s') /\
    forall idx : nat,
      (idx < 6)%nat ->
      exists entry : dict,
        nth_error result idx = Some entry /\
        let soc := site_soc state (Z.of_nat idx) in
        soc = Rmax 10 (Rmin 100 (batterySOC (kpis state)
                                 + (IZR (Z.of_nat idx) - 3) * 2)) /\
        10 <= soc <= 100 /\
        dict_get "soc" entry = Some (PFloat (Py.round soc 1)) /\
        10 <= Py.round soc 1 <= 100 /\
        (dict_get "status" entry = Some (PStr "online") <-> soc > 20) /\
        (dict_get "status" entry = Some (PStr "warning") <-> ~ soc > 20).
Proof.
  destruct (get_state_total t ti c s) as (state & s' & E & _).
  exists state, s', (sites_of (isoformat now) state).
  split; [exact E|].
  split; [unfold get_sites; rewrite E; reflexivity|].
  intros idx H.
  destruct (sites_of_nth (isoformat now) state idx H) as (site & _ & E2).
  exists (site_entry (isoformat now) state (Z.of_nat idx) site).
  split; [exact E2|]. cbv zeta.
  pose proof (site_soc_bounds state (Z.of_nat idx)) as B.
  split; [unfold site_soc; rewrite max_is_Rmax, min_is_Rmin; reflexivity|].
  split; [exact B|].
  split; [reflexivity|].
  split.
  { assert (B' : IZR 100 / 10 ^ 1 <= Py.round (site_soc state (Z.of_nat idx)) 1
                 <= IZR 1000 / 10 ^ 1).
    { apply round_between. simpl. lra. }
    simpl in B'. lra. }
  unfold site_entry. cbn [dict_get String.eqb Ascii.eqb Bool.eqb].
  destruct (Py.gt (site_soc state (Z.of_nat idx)) 20) eqn:G.
  - apply gt_true in G. split; split; intros; try reflexivity; try lra; try discriminate.
  - apply gt_false in G. split; split; intros; try reflexivity; try lra; try discriminate.
Qed.

Lemma get_sites_soc_status_witness :
  (0 < 6)%nat /\
  exists (state : State) (s' : Sim) (result : list dict) (entry : dict),
    get_sites 0 0 noon noon (_initialize_state 0) = Some (result, s') /\
    nth_error result 0 = Some entry /\
    10 <= site_soc state (Z.of_nat 0) <= 100 /\
    (dict_get "status" entry = Some (PStr "online")
       <-> site_soc state (Z.of_nat 0) > 20).
Proof.
  assert (H : (0 < 6)%nat) by lia.
  split; [exact H|].
  destruct (get_sites_soc_status 0 0 noon noon (_initialize_state 0))
    as (state & s' & result & _ & E & F).
  destruct (F 0%nat H) as (entry & E1 & _ & E2 & _ & _ & E3 & _).
  exists state, s', result, entry.
  repeat split; try assumption; apply E2 || apply E3.
Defined.

(** ** The model on a concrete reading *)

Lemma round_of_hundredths (n : Z) : Py.round (IZR n / 100) 2 = IZR n / 100.
Proof.
  unfold Py.round, Py.round_half_even, Py.gt.
  replace (IZR n / 100 * 10 ^ 2) with (IZR n) by (simpl; field).
  rewrite ZfloorZ.
  replace (Py.lt (IZR n - IZR n) (1 / 2)) with true
    by (symmetry; apply lt_true; lra).
  simpl. field.
Qed.

Example solar_power_noon0 : solar_power noon0 = 45.
Proof.
  unfold solar_power, solar_factor, hour_of, noon0; cbn [now_hour now_minute time_ms].
  replace (Py.le 6 (12 + 0 / 60)) with true by (symmetry; apply le_true; lra).
  replace (Py.le (12 + 0 / 60) 18) with true by (symmetry; apply le_true; lra).
  cbn [andb].
  replace ((12 + 0 / 60 - 6) / 12 * PI) with (PI / 2) by field.
  replace (0 / 10000) with 0 by field.
  rewrite sin_PI2, sin_0. lra.
Qed.

Example load_power_noon0 : load_power noon0 = 76.
Proof.
  unfold load_power, time_factor, base_load, hour_of, noon0;
    cbn [now_hour now_minute time_ms].
  replace ((12 + 0 / 60 - 6) / 12 * PI) with (PI / 2) by field.
  replace (0 / 8000) with 0 by field.
  rewrite sin_PI2, sin_0. lra.
Qed.

(** At noon the load exceeds the solar output by 31 kW: the battery power
    is -24.8 kW and the balance gives a grid power of 55.8 kW. *)
Example power_noon0 (delta_ms : R) :
  power (advance noon0 delta_ms (initial_state 0)) = mkPower 55.8 45 (-24.8) 76.
Proof.
  unfold advance, flows; cbn [power kpis batterySOC initial_state].
  rewrite solar_power_noon0, load_power_noon0.
  unfold battery_control.
  replace (Py.gt (45 - 76) 5) with false by (symmetry; apply gt_false; lra).
  replace (Py.lt (45 - 76) (-5)) with true by (symmetry; apply lt_true; lra).
  replace (Py.gt 75 15) with true by (symmetry; apply gt_true; lra).
  cbn [andb f_grid f_solar f_battery f_load].
  replace (Py.max ((45 - 76) * 0.8) (-25)) with (-24.8)
    by (unfold Py.max; replace (Py.gt (-25) ((45 - 76) * 0.8)) with false
          by (symmetry; apply gt_false; lra); lra).
  replace (76 - 45 - -24.8) with (IZR 5580 / 100) by lra.
  replace 45 with (IZR 4500 / 100) by lra.
  replace (-24.8) with (IZR (-2480) / 100) by lra.
  replace 76 with (IZR 7600 / 100) by lra.
  rewrite !round_of_hundredths.
  f_equal; lra.
Qed.

(** The solar output never exceeds the load: the controller never sees a
    positive net power in an advance. *)
Lemma net_power_negative (c : Clock) : solar_power c - load_power c < 0.
Proof.
  unfold solar_power, load_power, base_load, time_factor, solar_factor.
  pose proof (SIN_bound ((hour_of c - 6) / 12 * PI)) as [H1 H2].
  pose proof (SIN_bound (time_ms c / 10000)) as [H3 H4].
  pose proof (SIN_bound (time_ms c / 8000)) as [H5 H6].
  set (a := sin ((hour_of c - 6) / 12 * PI)) in *.
  set (u := sin (time_ms c / 10000)) in *.
  set (v := sin (time_ms c / 8000)) in *.
  assert (L : 80 * (0.7 + 0.3 * a) * 0.9 <= 80 * (0.7 + 0.3 * a) * (0.95 + v * 0.05)).
  { apply Rmult_le_compat_l; lra. }
  destruct (Py.le 6 (hour_of c) && Py.le (hour_of c) 18) eqn:E.
  - apply andb_true_iff in E. destruct E as [E1 E2].
    apply le_true in E1, E2.
    assert (A : 0 <= a).
    { unfold a. pose proof PI_RGT_0. apply sin_ge_0; nra. }
    assert (S : 50 * a * (0.9 + u * 0.1) <= 50 * a * 1).
    { apply Rmult_le_compat_l; lra. }
    lra.
  - lra.
Qed.

(** * Further properties *)

(** ** Ranges of the flows *)

Lemma solar_power_le_50 (c : Clock) : solar_power c <= 50.
Proof.
  unfold solar_power.
  pose proof (solar_factor_nonneg (hour_of c)) as A.
  assert (B : solar_factor (hour_of c) <= 1).
  { unfold solar_factor.
    destruct (Py.le 6 (hour_of c) && Py.le (hour_of c) 18); [|lra].
    apply SIN_bound. }
  pose proof (SIN_bound (time_ms c / 10000)) as [H3 H4].
  assert (S : 50 * solar_factor (hour_of c) * (0.9 + sin (time_ms c / 10000) * 0.1)
              <= 50 * solar_factor (hour_of c) * 1).
  { apply Rmult_le_compat_l; lra. }
  lra.
Qed.

Lemma load_power_range (c : Clock) : 28.8 <= load_power c <= 80.
Proof.
  unfold load_power, base_load, time_factor.
  pose proof (SIN_bound ((hour_of c - 6) / 12 * PI)) as [H1 H2].
  pose proof (SIN_bound (time_ms c / 8000)) as [H3 H4].
  set (a := sin ((hour_of c - 6) / 12 * PI)) in *.
  set (v := sin (time_ms c / 8000)) in *.
  assert (L : 80 * (0.7 + 0.3 * a) * 0.9 <= 80 * (0.7 + 0.3 * a) * (0.95 + v * 0.05)).
  { apply Rmult_le_compat_l; lra. }
  assert (U : 80 * (0.7 + 0.3 * a) * (0.95 + v * 0.05) <= 80 * (0.7 + 0.3 * a) * 1).
  { apply Rmult_le_compat_l; lra. }
  lra.
Qed.

(** The load exceeds the solar output by at least 22 kW. *)
Lemma net_power_le (c : Clock) : solar_power c - load_power c <= -22.
Proof.
  unfold solar_power, load_power, base_load, time_factor, solar_factor.
  pose proof (SIN_bound ((hour_of c - 6) / 12 * PI)) as [H1 H2].
  pose proof (SIN_bound (time_ms c / 10000)) as [H3 H4].
  pose proof (SIN_bound (time_ms c / 8000)) as [H5 H6].
  set (a := sin ((hour_of c - 6) / 12 * PI)) in *.
  set (u := sin (time_ms c / 10000)) in *.
  set (v := sin (time_ms c / 8000)) in *.
  assert (L : 80 * (0.7 + 0.3 * a) * 0.9 <= 80 * (0.7 + 0.3 * a) * (0.95 + v * 0.05)).
  { apply Rmult_le_compat_l; lra. }
  destruct (Py.le 6 (hour_of c) && Py.le (hour_of c) 18) eqn:E.
  - apply andb_true_iff in E. destruct E as [E1 E2].
    apply le_true in E1, E2.
    assert (A : 0 <= a).
    { unfold a. pose proof PI_RGT_0. apply sin_ge_0; nra. }
    assert (S : 50 * a * (0.9 + u * 0.1) <= 50 * a * 1).
    { apply Rmult_le_compat_l; lra. }
    lra.
  - lra.
Qed.

(** With a negative net power the controller discharges or idles. *)
Lemma battery_control_discharge (net soc delta_ms : R) :
  net <= 0 ->
  0 <= delta_ms ->
  -25 <= fst (battery_control net soc delta_ms) <= 0 /\
  snd (battery_control net soc delta_ms) <= soc.
Proof.
  intros Hn Hd. unfold battery_control.
  replace (Py.gt net 5) with false by (symmetry; apply gt_false; lra).
  cbn [andb].
  destruct (Py.lt net (-5) && Py.gt soc 15) eqn:E; cbn [fst snd]; [|lra].
  apply andb_true_iff in E. destruct E as [E1 E2]. apply lt_true in E1.
  assert (B : -25 <= Py.max (net * 0.8) (-25) <= 0) by py_arith.
  split; [exact B|].
  assert (0 <= - Py.max (net * 0.8) (-25) * (delta_ms / 1000 / 3600))
    by (apply Rmult_le_pos; lra).
  lra.
Qed.

Lemma flows_battery_range (c : Clock) (delta_ms : R) (st : State) :
  -25 <= f_battery (flows c delta_ms st) <= 0.
Proof.
  rewrite flows_battery. unfold battery_control.
  pose proof (net_power_le c) as N.
  replace (Py.gt (solar_power c - load_power c) 5) with false
    by (symmetry; apply gt_false; lra).
  cbn [andb].
  destruct (_ && _); cbn [fst]; [py_arith | lra].
Qed.

(** X1.  The powers an advance stores stay in fixed ranges, whatever the
    clock, the elapsed time and the prior state: solar in [0, 50], load in
    [28.8, 80], battery in [-25, 0] (the battery is never charged) and grid
    in [22, 105] (power is always imported, never exported). *)
Theorem advance_power_ranges (c : Clock) (delta_ms : R) (st : State) :
  let p := power (advance c delta_ms st) in
  0 <= solar p <= 50 /\
  28.8 <= load p <= 80 /\
  -25 <= battery p <= 0 /\
  22 <= grid p <= 105.
Proof.
  cbv zeta. unfold advance; cbn [power grid solar battery load].
  pose proof (flows_battery_range c delta_ms st) as B.
  pose proof (net_power_le c) as N.
  pose proof (solar_power_nonneg c) as S0.
  pose proof (solar_power_le_50 c) as S1.
  pose proof (load_power_range c) as L.
  rewrite flows_grid, flows_solar, flows_load.
  assert (R1 : IZR 0 / 100 <= Py.round (solar_power c) 2 <= IZR 5000 / 100)
    by (apply round2_between; lra).
  assert (R2 : IZR 2880 / 100 <= Py.round (load_power c) 2 <= IZR 8000 / 100)
    by (apply round2_between; lra).
  assert (R3 : IZR (-2500) / 100 <= Py.round (f_battery (flows c delta_ms st)) 2
               <= IZR 0 / 100)
    by (apply round2_between; lra).
  assert (R4 : IZR 2200 / 100
               <= Py.round (load_power c - solar_power c
                            - f_battery (flows c delta_ms st)) 2
               <= IZR 10500 / 100)
    by (apply round2_between; lra).
  lra.
Qed.

(** X2.  The controller in an advance: with a stored SOC above 15 the
    battery discharges at between 17.6 and 25 kW; with a stored SOC of 15 or
    less it idles, the battery power is 0 and the SOC is only clamped and
    rounded. *)
Theorem advance_discharge_or_idle (c : Clock) (delta_ms : R) (st : State) :
  (batterySOC (kpis st) > 15 ->
     -25 <= battery (power (advance c delta_ms st)) <= -17.6) /\
  (batterySOC (kpis st) <= 15 ->
     battery (power (advance c delta_ms st)) = 0 /\
     batterySOC (kpis (advance c delta_ms st))
       = Py.round (clamp_soc (batterySOC (kpis st))) 2).
Proof.
  pose proof (net_power_le c) as N.
  unfold advance; cbn [power kpis battery batterySOC].
  rewrite flows_battery, flows_soc. unfold battery_control.
  replace (Py.gt (solar_power c - load_power c) 5) with false
    by (symmetry; apply gt_false; lra).
  replace (Py.lt (solar_power c - load_power c) (-5)) with true
    by (symmetry; apply lt_true; lra).
  cbn [andb]. split; intros H.
  - replace (Py.gt (batterySOC (kpis st)) 15) with true
      by (symmetry; apply gt_true; lra).
    cbn [fst].
    assert (B : -25 <= Py.max ((solar_power c - load_power c) * 0.8) (-25) <= -17.6)
      by py_arith.
    assert (R1 : IZR (-2500) / 100
                 <= Py.round (Py.max ((solar_power c - load_power c) * 0.8) (-25)) 2
                 <= IZR (-1760) / 100)
      by (apply round2_between; lra).
    lra.
  - replace (Py.gt (batterySOC (kpis st)) 15) with false
      by (symmetry; apply gt_false; lra).
    cbn [fst snd]. split; [apply round_zero | reflexivity].
Qed.

Lemma advance_discharge_or_idle_witness :
  batterySOC (kpis (initial_state 0)) > 15 /\
  -25 <= battery (power (advance noon 1000 (initial_state 0))) <= -17.6.
Proof.
  assert (H : batterySOC (kpis (initial_state 0)) > 15) by (cbn; lra).
  split; [exact H|].
  exact (proj1 (advance_discharge_or_idle noon 1000 (initial_state 0)) H).
Defined.

(** X3.  The stored powers are rounded one by one, so they satisfy the
    balance only approximately: the stored grid power differs from
    load - solar - battery of the stored values by at most 0.02. *)
Theorem advance_stored_balance (c : Clock) (delta_ms : R) (st : State) :
  let p := power (advance c delta_ms st) in
  - 0.02 <= grid p - (load p - solar p - battery p) <= 0.02.
Proof.
  cbv zeta. unfold advance; cbn [power grid solar battery load].
  set (fl := flows c delta_ms st).
  pose proof (flows_grid c delta_ms st) as G. fold fl in G.
  pose proof (round2_error (f_grid fl)).
  pose proof (round2_error (f_solar fl)).
  pose proof (round2_error (f_battery fl)).
  pose proof (round2_error (f_load fl)).
  lra.
Qed.

(** ** The state of charge along a run *)

Lemma clamp_soc_cases (x : R) :
  (x <= 10 /\ clamp_soc x = 10) \/
  (10 <= x <= 100 /\ clamp_soc x = x) \/
  (100 <= x /\ clamp_soc x = 100).
Proof.
  unfold clamp_soc, Py.max, Py.min, Py.gt.
  destruct (Py.lt x 100) eqn:E1; [apply lt_true in E1 | apply lt_false in E1].
  - destruct (Py.lt 10 x) eqn:E2; [apply lt_true in E2 | apply lt_false in E2].
    + right; left. lra.
    + left. lra.
  - replace (Py.lt 10 100) with true by (symmetry; apply lt_true; lra).
    right; right. lra.
Qed.

Lemma clamp_soc_mono (x y : R) : x <= y -> clamp_soc x <= clamp_soc y.
Proof.
  intros H.
  destruct (clamp_soc_cases x) as [[? ->]|[[? ->]|[? ->]]];
    destruct (clamp_soc_cases y) as [[? ->]|[[? ->]|[? ->]]]; lra.
Qed.

Lemma clamp_soc_id (x : R) : 10 <= x <= 100 -> clamp_soc x = x.
Proof.
  intros H. destruct (clamp_soc_cases x) as [[? ->]|[[? ->]|[? ->]]]; lra.
Qed.

Lemma advance_soc_stored (c : Clock) (delta_ms : R) (st : State) :
  soc_stored (batterySOC (kpis (advance c delta_ms st))).
Proof.
  unfold advance; cbn [kpis batterySOC].
  pose proof (clamp_soc_bounds
                (snd (battery_control (solar_power c - load_power c)
                        (batterySOC (kpis st)) delta_ms))) as B.
  rewrite flows_soc. unfold Py.round.
  eexists. split; [|simpl; f_equal; lra].
  apply round_half_even_between. simpl. lra.
Qed.

Lemma run_soc_stored (steps : list step) (st : State) :
  soc_stored (batterySOC (kpis st)) ->
  soc_stored (batterySOC (kpis (run steps st))).
Proof.
  revert st. induction steps as [|[c d] steps IH]; intros st H; [exact H|].
  rewrite run_cons. apply IH, advance_soc_stored.
Qed.

Lemma initial_soc_stored (now : R) : soc_stored (batterySOC (kpis (initial_state now))).
Proof. exists 7500%Z. split; [lia | cbn; lra]. Qed.

Lemma soc_stored_range (soc : R) : soc_stored soc -> 10 <= soc <= 100.
Proof.
  intros (n & [H1 H2] & ->). apply IZR_le in H1, H2. lra.
Qed.

Lemma advance_soc_le (c : Clock) (delta_ms : R) (st : State) :
  soc_stored (batterySOC (kpis st)) ->
  0 <= delta_ms ->
  batterySOC (kpis (advance c delta_ms st)) <= batterySOC (kpis st).
Proof.
  intros S Hd.
  pose proof (soc_stored_range _ S) as B.
  destruct S as (n & _ & E).
  assert (F : Py.round (clamp_soc (batterySOC (kpis st))) 2 = batterySOC (kpis st)).
  { rewrite clamp_soc_id by exact B. rewrite E. apply round_of_hundredths. }
  unfold advance; cbn [kpis batterySOC]. rewrite flows_soc.
  rewrite <- F at 2.
  apply round_mono, clamp_soc_mono.
  pose proof (net_power_le c).
  apply battery_control_discharge; lra.
Qed.

(** X4.  Along every run from the initial state the stored SOC is a number
    in [10, 100], and advances with [delta_ms >= 0] never raise it: the
    battery only drains. *)
Theorem soc_never_increases (steps1 steps2 : list step) (now : R) :
  Forall (fun s : step => 0 <= snd s) steps2 ->
  let before := batterySOC (kpis (run steps1 (initial_state now))) in
  let after := batterySOC (kpis (run (steps1 ++ steps2) (initial_state now))) in
  10 <= after /\ after <= before /\ before <= 100.
Proof.
  intros H. cbv zeta. rewrite run_app.
  pose proof (run_soc_stored steps1 _ (initial_soc_stored now)) as S.
  revert S. generalize (run steps1 (initial_state now)). clear steps1.
  induction H as [|[c d] steps Hd _ IH]; intros st S.
  - cbn. pose proof (soc_stored_range _ S). lra.
  - rewrite run_cons. cbn [snd] in Hd.
    pose proof (advance_soc_le c d st S Hd).
    pose proof (IH _ (advance_soc_stored c d st)).
    pose proof (soc_stored_range _ S). lra.
Qed.

Lemma soc_never_increases_witness :
  Forall (fun s : step => 0 <= snd s) [(noon, 3600000); (noon0, 250)] /\
  batterySOC (kpis (run ([] ++ [(noon, 3600000); (noon0, 250)]) (initial_state 0)))
    <= batterySOC (kpis (run [] (initial_state 0))).
Proof.
  assert (H : Forall (fun s : step => 0 <= snd s) [(noon, 3600000); (noon0, 250)]).
  { repeat constructor; cbn; lra. }
  split; [exact H|].
  exact (proj1 (proj2 (soc_never_increases [] _ 0 H))).
Defined.

(** ** The two timestamps of the class *)

Lemma get_state_advanced (t ti : R) (c : Clock) (s : Sim) (st : State) :
  _state s = Some st ->
  t - _last_update s > 100 ->
  get_state t ti c s
    = Some (advance c (t - _last_update s) st,
            mkSim (Some (advance c (t - _last_update s) st)) (time_ms c)).
Proof.
  intros Es H. unfold get_state. rewrite Es.
  apply gt_true in H. rewrite H.
  unfold _advance_simulation. rewrite Es. reflexivity.
Qed.

(** X5.  [get_state] keeps the two records of the last update equal: when
    the stored state's [lastUpdated] is [_last_update] (as after
    [_initialize_state], and trivially without a state), the returned state
    is the stored one and its [lastUpdated] is again [_last_update]. *)
Theorem get_state_last_update
  (t ti : R) (c : Clock) (s : Sim) (st' : State) (s' : Sim) :
  (forall st, _state s = Some st -> lastUpdated st = _last_update s) ->
  get_state t ti c s = Some (st', s') ->
  _state s' = Some st' /\ lastUpdated st' = _last_update s'.
Proof.
  intros I. unfold get_state.
  destruct (_state s) as [st|] eqn:Es.
  - destruct (Py.gt _ _).
    + unfold _advance_simulation. rewrite Es. cbn. intros [= <- <-]. cbn. auto.
    + rewrite Es. intros [= <- <-]. auto.
  - cbn [_initialize_state _last_update _state].
    destruct (Py.gt _ _); cbn; intros [= <- <-]; cbn; auto.
Qed.

Lemma get_state_last_update_witness :
  (forall st, _state (_initialize_state 0) = Some st ->
              lastUpdated st = _last_update (_initialize_state 0)) /\
  get_state 250 0 noon (_initialize_state 0)
    = Some (advance noon (250 - 0) (initial_state 0),
            mkSim (Some (advance noon (250 - 0) (initial_state 0))) (time_ms noon)) /\
  lastUpdated (advance noon (250 - 0) (initial_state 0)) = time_ms noon.
Proof.
  assert (I : forall st, _state (_initialize_state 0) = Some st ->
                         lastUpdated st = _last_update (_initialize_state 0)).
  { intros st [= <-]. reflexivity. }
  assert (E : get_state 250 0 noon (_initialize_state 0)
              = Some (advance noon (250 - 0) (initial_state 0),
                      mkSim (Some (advance noon (250 - 0) (initial_state 0)))
                            (time_ms noon))).
  { apply (get_state_advanced 250 0 noon (_initialize_state 0) (initial_state 0)).
    - reflexivity.
    - cbn. lra. }
  split; [exact I|]. split; [exact E|].
  exact (proj2 (get_state_last_update 250 0 noon _ _ _ I E)).
Defined.

(** ** The chart samples *)

Lemma lastn_map {A B : Type} (f : A -> B) (n : nat) (l : list A) :
  map f (lastn n l) = lastn n (map f l).
Proof. unfold lastn. rewrite length_map. symmetry. apply skipn_map. Qed.

Lemma appended_timestamps (k : key) (steps : list step) (st : State) :
  map timestamp (appended k steps st) = map (fun s : step => isoformat (fst s)) steps.
Proof.
  revert st. induction steps as [|[c d] steps IH]; intros st; [reflexivity|].
  cbn [appended map fst timestamp]. rewrite IH. reflexivity.
Qed.

(** X6.  In every state reached from the initial one the four series carry
    the same timestamps in the same order: sample [i] of each series was
    taken by the same advance, and the timestamps are those of the last 100
    advances. *)
Theorem chart_series_aligned (steps : list step) (now : R) (k k' : key) :
  let st := run steps (initial_state now) in
  map timestamp (charts_get k (charts st))
    = lastn 100 (map (fun s : step => isoformat (fst s)) steps) /\
  map timestamp (charts_get k (charts st))
    = map timestamp (charts_get k' (charts st)).
Proof.
  cbv zeta.
  assert (E : forall j : key,
             map timestamp (charts_get j (charts (run steps (initial_state now))))
             = lastn 100 (map (fun s : step => isoformat (fst s)) steps)).
  { intros j. rewrite run_series by (destruct j; cbn; lia).
    replace (charts_get j (charts (initial_state now))) with (@nil Point)
      by (destruct j; reflexivity).
    cbn [app]. rewrite lastn_map, appended_timestamps. reflexivity. }
  split; [apply E | rewrite !E; reflexivity].
Qed.

Lemma keep_last_100_last (l : list Point) (x d : Point) :
  last (keep_last_100 (l ++ [x])) d = x.
Proof.
  unfold keep_last_100.
  destruct (100 <? List.length (l ++ [x]))%nat eqn:E.
  - destruct l as [|y l]; [cbn in E; discriminate|].
    cbn [app tl]. apply last_last.
  - apply last_last.
Qed.

(** X7.  After an advance, from any state, the newest sample of each
    series is the power that advance stored under the same key, stamped with
    the advance's time. *)
Theorem advance_newest_sample (k : key) (c : Clock) (delta_ms : R) (st : State)
  (d : Point) :
  last (charts_get k (charts (advance c delta_ms st))) d
    = mkPoint (isoformat c) (power_get k (power (advance c delta_ms st))).
Proof. rewrite advance_series. apply keep_last_100_last. Qed.

(** ** The reported KPIs *)

Lemma run_accumulators (steps : list step) (st : State) :
  Forall (fun s : step => 0 <= snd s) steps ->
  energyToday (kpis st) <= energyToday (kpis (run steps st)) /\
  peakPowerToday (kpis st) <= peakPowerToday (kpis (run steps st)) /\
  costSavings (kpis st) <= costSavings (kpis (run steps st)) /\
  carbonAvoided (kpis st) <= carbonAvoided (kpis (run steps st)).
Proof.
  intros H. revert st.
  induction H as [|[c d] steps Hd _ IH]; intros st.
  - cbn. lra.
  - rewrite run_cons. cbn [snd] in Hd.
    pose proof (advance_accumulators c d st Hd) as (A1 & A2 & A3 & A4).
    pose proof (IH (advance c d st)) as (B1 & B2 & B3 & B4).
    lra.
Qed.

(** X8.  The figures [get_kpis] reports are rounded, and rounding keeps
    their order: along a run from the initial state with [delta_ms >= 0]
    throughout, the four reported accumulators are non-negative and a later
    report is never below an earlier one. *)
Theorem kpis_report_non_decreasing
  (cal cal' : Calendar) (steps1 steps2 : list step) (now : R) :
  Forall (fun s : step => 0 <= snd s) steps1 ->
  Forall (fun s : step => 0 <= snd s) steps2 ->
  let r1 := kpis_of cal (run steps1 (initial_state now)) in
  let r2 := kpis_of cal' (run (steps1 ++ steps2) (initial_state now)) in
  (0 <= k_energyToday r1 /\ k_energyToday r1 <= k_energyToday r2) /\
  (0 <= k_peakPower r1 /\ k_peakPower r1 <= k_peakPower r2) /\
  (0 <= k_costSavings r1 /\ k_costSavings r1 <= k_costSavings r2) /\
  (0 <= k_carbonAvoided r1 /\ k_carbonAvoided r1 <= k_carbonAvoided r2).
Proof.
  intros H1 H2. cbv zeta. rewrite run_app.
  pose proof (run_accumulators steps1 (initial_state now) H1) as (A1 & A2 & A3 & A4).
  pose proof (run_accumulators steps2 (run steps1 (initial_state now)) H2)
    as (B1 & B2 & B3 & B4).
  cbn [initial_state kpis energyToday peakPowerToday costSavings carbonAvoided]
    in A1, A2, A3, A4.
  unfold kpis_of;
    cbn [k_energyToday k_peakPower k_costSavings k_carbonAvoided].
  repeat split; (apply round_nonneg; assumption) || (apply round_mono; assumption).
Qed.

Lemma kpis_report_non_decreasing_witness :
  Forall (fun s : step => 0 <= snd s) [(noon, 500)] /\
  Forall (fun s : step => 0 <= snd s) [(noon0, 3600000)] /\
  k_energyToday (kpis_of calendar0 (run [(noon, 500)] (initial_state 0)))
    <= k_energyToday
         (kpis_of calendar0
            (run ([(noon, 500)] ++ [(noon0, 3600000)]) (initial_state 0))).
Proof.
  assert (H1 : Forall (fun s : step => 0 <= snd s) [(noon, 500)]).
  { repeat constructor; cbn; lra. }
  assert (H2 : Forall (fun s : step => 0 <= snd s) [(noon0, 3600000)]).
  { repeat constructor; cbn; lra. }
  split; [exact H1|]. split; [exact H2|].
  exact (proj2 (proj1 (kpis_report_non_decreasing calendar0 calendar0 _ _ 0 H1 H2))).
Defined.

(** ** The tariff *)

Lemma hour_cases (h : Z) :
  (0 <= h <= 23)%Z ->
  (h = 0 \/ h = 1 \/ h = 2 \/ h = 3 \/ h = 4 \/ h = 5 \/ h = 6 \/ h = 7 \/
   h = 8 \/ h = 9 \/ h = 10 \/ h = 11 \/ h = 12 \/ h = 13 \/ h = 14 \/ h = 15 \/
   h = 16 \/ h = 17 \/ h = 18 \/ h = 19 \/ h = 20 \/ h = 21 \/ h = 22 \/ h = 23)%Z.
Proof. lia. Qed.

Ltac each_hour H :=
  apply hour_cases in H;
  repeat (destruct H as [H|H]; [subst|]); [..|subst].






Lemma today_cost_nonneg (energy_today : R) : 0 <= today_cost_of energy_today.
Proof. unfold today_cost_of. apply max_ge_l. Qed.

Lemma savings_percentage_range (today_cost cost_savings : R) :
  0 <= today_cost ->
  0 <= cost_savings ->
  0 <= savings_percentage_of today_cost cost_savings <= 100.
Proof.
  intros Ht Hs. unfold savings_percentage_of.
  destruct (Py.gt (today_cost + cost_savings) 0) eqn:E; [|lra].
  apply gt_true in E.
  set (b := today_cost + cost_savings) in *.
  assert (I : 0 < / b) by (apply Rinv_0_lt_compat; lra).
  assert (L : 0 <= cost_savings / b) by (apply Rmult_le_pos; lra).
  assert (U : cost_savings / b <= 1).
  { apply (Rmult_le_reg_r b); [lra|].
    unfold Rdiv. rewrite Rmult_assoc, Rinv_l by lra. unfold b. lra. }
  lra.
Qed.

(** X11.  The cost figures of [get_tariff].  Today's cost, the
    month-to-date cost and the projected month cost are never negative,
    whatever the state.  With non-negative savings (as in every state the
    simulation reaches) the savings percentage lies in [0, 100].  Whenever
    the baseline cost, today's cost plus the savings, is zero or negative,
    nothing is divided and the percentage is 0. *)
Theorem tariff_costs (now : Clock) (state : State) :
  let t := tariff_of now state in
  0 <= ti_todayCost t /\
  0 <= ti_monthToDateCost t /\
  0 <= ti_projectedMonthCost t /\
  (0 <= costSavings (kpis state) -> 0 <= ti_savingsPercentage t <= 100) /\
  (today_cost_of (energyToday (kpis state)) + costSavings (kpis state) <= 0 ->
   ti_savingsPercentage t = 0).
Proof.
  cbv zeta.
  unfold tariff_of;
    cbn [ti_todayCost ti_monthToDateCost ti_projectedMonthCost ti_savingsPercentage].
  pose proof (today_cost_nonneg (energyToday (kpis state))) as Ht.
  split; [apply round_nonneg; exact Ht|].
  split; [apply round_nonneg; lra|].
  split; [apply round_nonneg; lra|].
  split.
  - intros Hs.
    pose proof (savings_percentage_range _ _ Ht Hs) as P.
    assert (B : IZR 0 / 10
                <= Py.round (savings_percentage_of
                               (today_cost_of (energyToday (kpis state)))
                               (costSavings (kpis state))) 1
                <= IZR 1000 / 10)
      by (apply round1_between; lra).
    lra.
  - intros Hb. unfold savings_percentage_of.
    replace (Py.gt (today_cost_of (energyToday (kpis state))
                    + costSavings (kpis state)) 0)
      with false by (symmetry; apply gt_false; exact Hb).
    apply round_zero.
Qed.

Lemma today_cost_of_zero : today_cost_of 0 = 0.
Proof.
  unfold today_cost_of, Py.max.
  replace (Py.gt (0 * ((ts_peak tariff_structure + ts_normal tariff_structure
                        + ts_offPeak tariff_structure) / 3) * 0.3) 0)
    with false by (symmetry; apply gt_false; lra).
  reflexivity.
Qed.

Lemma tariff_costs_witness :
  (0 <= costSavings (kpis (mkState (mkPower 0 0 0 0) (mkKpis 75 10 40 1 0 6)
                                   (mkCharts [] [] [] []) 0)) /\
   0 < today_cost_of 10 + 1 /\
   0 <= ti_savingsPercentage
          (tariff_of noon (mkState (mkPower 0 0 0 0) (mkKpis 75 10 40 1 0 6)
                                   (mkCharts [] [] [] []) 0)) <= 100) /\
  (today_cost_of (energyToday (kpis (mkState (mkPower 0 0 0 0)
                                             (mkKpis 75 0 0 (-5) 0 6)
                                             (mkCharts [] [] [] []) 0)))
   + costSavings (kpis (mkState (mkPower 0 0 0 0) (mkKpis 75 0 0 (-5) 0 6)
                                (mkCharts [] [] [] []) 0)) <= 0 /\
   ti_savingsPercentage
     (tariff_of noon (mkState (mkPower 0 0 0 0) (mkKpis 75 0 0 (-5) 0 6)
                              (mkCharts [] [] [] []) 0)) = 0).
Proof.
  split.
  - assert (H : 0 <= costSavings (kpis (mkState (mkPower 0 0 0 0)
                                                (mkKpis 75 10 40 1 0 6)
                                                (mkCharts [] [] [] []) 0)))
      by (cbn; lra).
    split; [exact H|]. split.
    + pose proof (today_cost_nonneg 10). lra.
    + exact (proj1 (proj2 (proj2 (proj2 (tariff_costs noon _)))) H).
  - assert (H : today_cost_of (energyToday (kpis (mkState (mkPower 0 0 0 0)
                                                     (mkKpis 75 0 0 (-5) 0 6)
                                                     (mkCharts [] [] [] []) 0)))
                + costSavings (kpis (mkState (mkPower 0 0 0 0)
                                             (mkKpis 75 0 0 (-5) 0 6)
                                             (mkCharts [] [] [] []) 0)) <= 0).
    { cbn [kpis energyToday costSavings]. rewrite today_cost_of_zero. lra. }
    split; [exact H|].
    exact (proj2 (proj2 (proj2 (proj2 (tariff_costs noon _)))) H).
Defined.

(** ** Analytics *)

Lemma change_of_ratio (x k : R) :
  0 < x -> 0 < k ->
  change_of x (x * k) = (1 - k) / k * 100.
Proof.
  intros Hx Hk. unfold change_of.
  replace (Py.gt (x * k) 0) with true
    by (symmetry; apply gt_true; apply Rmult_lt_0_compat; lra).
  field. lra.
Qed.

Lemma change_of_guard (x y : R) : y <= 0 -> change_of x y = 0.
Proof.
  intros H. unfold change_of.
  replace (Py.gt y 0) with false by (symmetry; apply gt_false; exact H).
  reflexivity.
Qed.

Lemma round1_value (n : Z) (x : R) :
  IZR n - 1 / 2 < x * 10 < IZR n + 1 / 2 -> Py.round x 1 = IZR n / 10.
Proof.
  intros H. unfold Py.round.
  rewrite (round_half_even_near n) by (simpl; lra).
  simpl. f_equal. lra.
Qed.

(** X12.  The trends of [get_analytics] do not depend on the data: while
    [energyToday] is positive the daily, weekly and monthly changes are
    reported as 8.7, 13.6 and 5.3 percent, all marked positive; while it is
    zero (or less) the previous-period figures are not positive, nothing is
    divided, and the changes are 0 and not marked positive. *)
Theorem analytics_trends (cal : Calendar) (now : Clock) (state : State) :
  let tr := an_trends (analytics_of cal now state) in
  (energyToday (kpis state) > 0 ->
     tr_change (tr_daily tr) = 8.7 /\ tr_isPositive (tr_daily tr) = true /\
     tr_change (tr_weekly tr) = 13.6 /\ tr_isPositive (tr_weekly tr) = true /\
     tr_change (tr_monthly tr) = 5.3 /\ tr_isPositive (tr_monthly tr) = true) /\
  (energyToday (kpis state) <= 0 ->
     tr_change (tr_daily tr) = 0 /\ tr_isPositive (tr_daily tr) = false /\
     tr_change (tr_weekly tr) = 0 /\ tr_isPositive (tr_weekly tr) = false /\
     tr_change (tr_monthly tr) = 0 /\ tr_isPositive (tr_monthly tr) = false).
Proof.
  cbv zeta. unfold analytics_of;
    cbn [an_trends tr_daily tr_weekly tr_monthly tr_change tr_isPositive].
  set (e := energyToday (kpis state)).
  split; intros H.
  - rewrite (change_of_ratio e 0.92) by lra.
    rewrite (change_of_ratio (e * 6.5) 0.88) by lra.
    rewrite (change_of_ratio (e * 22) 0.95) by lra.
    rewrite (round1_value 87) by lra.
    rewrite (round1_value 136) by lra.
    rewrite (round1_value 53) by lra.
    repeat split; try lra; apply gt_true; lra.
  - rewrite !change_of_guard by lra.
    rewrite round_zero.
    repeat split; apply gt_false; lra.
Qed.

Lemma analytics_trends_witness :
  energyToday (kpis (mkState (mkPower 0 0 0 0) (mkKpis 75 1 0 0 0 6)
                             (mkCharts [] [] [] []) 0)) > 0 /\
  tr_change (tr_daily (an_trends (analytics_of calendar0 noon
     (mkState (mkPower 0 0 0 0) (mkKpis 75 1 0 0 0 6) (mkCharts [] [] [] []) 0))))
    = 8.7 /\
  energyToday (kpis (initial_state 0)) <= 0 /\
  tr_change (tr_daily (an_trends (analytics_of calendar0 noon (initial_state 0)))) = 0.
Proof.
  assert (H1 : energyToday (kpis (mkState (mkPower 0 0 0 0) (mkKpis 75 1 0 0 0 6)
                                          (mkCharts [] [] [] []) 0)) > 0)
    by (cbn; lra).
  assert (H2 : energyToday (kpis (initial_state 0)) <= 0) by (cbn; lra).
  split; [exact H1|].
  split; [exact (proj1 (proj1 (analytics_trends calendar0 noon _) H1))|].
  split; [exact H2|].
  exact (proj1 (proj2 (analytics_trends calendar0 noon _) H2)).
Defined.

(** X13.  The four shares of the consumption breakdown are rounded one by
    one: they add up to the load they split to within 0.02, and none is
    negative when the load is not. *)
Theorem analytics_breakdown (cal : Calendar) (now : Clock) (state : State) :
  let b := an_consumptionBreakdown (analytics_of cal now state) in
  - 0.02 <= cb_hvac b + cb_lighting b + cb_equipment b + cb_other b
            - load (power state) <= 0.02 /\
  (0 <= load (power state) ->
   0 <= cb_hvac b /\ 0 <= cb_lighting b /\ 0 <= cb_equipment b /\ 0 <= cb_other b).
Proof.
  cbv zeta. unfold analytics_of;
    cbn [an_consumptionBreakdown cb_hvac cb_lighting cb_equipment cb_other].
  set (l := load (power state)).
  pose proof (round2_error (l * 0.45)).
  pose proof (round2_error (l * 0.25)).
  pose proof (round2_error (l * 0.20)).
  pose proof (round2_error (l * 0.10)).
  split; [lra|].
  intros Hl. repeat split; apply round_nonneg; lra.
Qed.

Lemma analytics_breakdown_witness :
  0 <= load (power (initial_state 0)) /\
  0 <= cb_hvac (an_consumptionBreakdown
                  (analytics_of calendar0 noon (initial_state 0))).
Proof.
  assert (H : 0 <= load (power (initial_state 0))) by (cbn; lra).
  split; [exact H|].
  exact (proj1 (proj2 (analytics_breakdown calendar0 noon (initial_state 0)) H)).
Defined.

Lemma max_ge_r (a b : R) : b <= Py.max a b.
Proof. py_arith. Qed.

(** X14.  The average load factor.  Right after an advance the peak is at
    least the load of that advance, which is at least 28.8, so the factor is
    computed by a division and lies in [0, 100.02]: the stored load is
    rounded and can exceed the unrounded peak by 0.005.  With a peak that is
    not positive, as before the first advance, nothing is divided and the
    factor is 0. *)
Theorem analytics_load_factor (cal : Calendar) (now c : Clock) (delta_ms : R)
  (st : State) :
  0 <= an_averageLoadFactor (analytics_of cal now (advance c delta_ms st)) <= 100.02 /\
  (peakPowerToday (kpis st) <= 0 ->
   an_averageLoadFactor (analytics_of cal now st) = 0).
Proof.
  split.
  - unfold analytics_of; cbn [an_averageLoadFactor].
    unfold advance; cbn [power kpis load peakPowerToday].
    rewrite flows_load.
    pose proof (load_power_range c) as [L1 L2].
    pose proof (max_ge_r (peakPowerToday (kpis st)) (load_power c)) as P.
    pose proof (round2_error (load_power c)) as E.
    set (peak := Py.max (peakPowerToday (kpis st)) (load_power c)) in *.
    set (l := Py.round (load_power c) 2) in *.
    replace (Py.gt peak 0) with true by (symmetry; apply gt_true; lra).
    assert (I : 0 < / peak) by (apply Rinv_0_lt_compat; lra).
    assert (A : 0 <= l / peak) by (apply Rmult_le_pos; lra).
    assert (B : l / peak <= 1.0002).
    { apply (Rmult_le_reg_r peak); [lra|].
      unfold Rdiv. rewrite Rmult_assoc, Rinv_l by lra. lra. }
    assert (F : IZR 0 / 100 <= Py.round (l / peak * 100) 2 <= IZR 10002 / 100)
      by (apply round2_between; lra).
    lra.
  - intros H. unfold analytics_of; cbn [an_averageLoadFactor].
    replace (Py.gt (peakPowerToday (kpis st)) 0) with false
      by (symmetry; apply gt_false; exact H).
    apply round_zero.
Qed.

Lemma analytics_load_factor_witness :
  peakPowerToday (kpis (initial_state 0)) <= 0 /\
  an_averageLoadFactor (analytics_of calendar0 noon (initial_state 0)) = 0.
Proof.
  assert (H : peakPowerToday (kpis (initial_state 0)) <= 0) by (cbn; lra).
  split; [exact H|].
  exact (proj2 (analytics_load_factor calendar0 noon noon 0 (initial_state 0)) H).
Defined.

(** ** Live telemetry *)

Lemma run_snoc (steps : list step) (c : Clock) (delta_ms : R) (st : State) :
  run (steps ++ [(c, delta_ms)]) st = advance c delta_ms (run steps st).
Proof. rewrite run_app. reflexivity. Qed.

(** The ranges of the stored values in every state of a run from the
    initial state. *)
Lemma run_ranges (steps : list step) (now : R) :
  let st := run steps (initial_state now) in
  10 <= batterySOC (kpis st) <= 100 /\
  0 <= solar (power st) <= 50 /\
  0 <= load (power st) <= 80 /\
  -25 <= battery (power st) <= 0 /\
  0 <= grid (power st) <= 105.
Proof.
  cbv zeta. split.
  - apply soc_stored_range, run_soc_stored, initial_soc_stored.
  - destruct steps as [|x steps'] using rev_ind; [cbn; lra|].
    destruct x as [c d]. rewrite run_snoc.
    pose proof (advance_power_ranges c d (run steps' (initial_state now))) as R0.
    cbv zeta in R0. lra.
Qed.

(** X15.  What [get_live_telemetry] reports.  On a class without a state,
    or holding a state reached from an initial one by advances, the call
    returns, and its figures are in range: SOC in [10, 100], solar in
    [0, 50], load in [0, 80], battery in [-25, 0], grid in [0, 105]. *)
Theorem live_telemetry_ranges (cal : Calendar) (t ti : R) (c : Clock) (s : Sim)
  (steps : list step) (now : R) :
  _state s = None \/ _state s = Some (run steps (initial_state now)) ->
  exists (tel : Telemetry) (s' : Sim),
    get_live_telemetry cal t ti c s = Some (tel, s') /\
    10 <= t_batterySOC tel <= 100 /\
    0 <= t_solarPower tel <= 50 /\
    0 <= t_loadPower tel <= 80 /\
    -25 <= t_batteryPower tel <= 0 /\
    0 <= t_gridPower tel <= 105.
Proof.
  intros H.
  destruct (get_state_total t ti c s) as (st & s' & E & _).
  exists (telemetry_of cal st), s'.
  split; [unfold get_live_telemetry; rewrite E; reflexivity|].
  assert (R0 : exists steps' now', st = run steps' (initial_state now')).
  { destruct H as [H|H].
    - destruct (get_state_fresh t ti c s st s' H E) as [->| ->]; eauto.
    - destruct (get_state_run t ti c s st s' steps now H E) as [->| ->]; eauto. }
  destruct R0 as (steps' & now' & ->).
  pose proof (run_ranges steps' now') as R0. cbv zeta in R0.
  unfold telemetry_of;
    cbn [t_batterySOC t_solarPower t_loadPower t_batteryPower t_gridPower].
  tauto.
Qed.

Lemma live_telemetry_ranges_witness :
  (_state (mkSim None 0) = None \/
   _state (mkSim None 0) = Some (run [] (initial_state 0))) /\
  exists (tel : Telemetry) (s' : Sim),
    get_live_telemetry calendar0 500 300 noon (mkSim None 0) = Some (tel, s') /\
    10 <= t_batterySOC tel <= 100.
Proof.
  assert (H : _state (mkSim None 0) = None \/
              _state (mkSim None 0) = Some (run [] (initial_state 0)))
    by (left; reflexivity).
  split; [exact H|].
  destruct (live_telemetry_ranges calendar0 500 300 noon (mkSim None 0) [] 0 H)
    as (tel & s' & E & B & _).
  exists tel, s'. split; assumption.
Defined.

(** ** Weather *)

Lemma clamp_percent (x : R) : 0 <= Py.max 0 (Py.min 100 x) <= 100.
Proof.
  unfold Py.max, Py.min, Py.gt.
  destruct (Py.lt x 100) eqn:E1; [apply lt_true in E1 | apply lt_false in E1].
  - destruct (Py.lt 0 x) eqn:E2; [apply lt_true in E2 | apply lt_false in E2]; lra.
  - replace (Py.lt 0 100) with true by (symmetry; apply lt_true; lra). lra.
Qed.

Lemma cloud_cover_range (h : Z) (solar_power : R) :
  0 <= cloud_cover_of h solar_power <= 100.
Proof.
  unfold cloud_cover_of. destruct (is_zero _); [lra | apply clamp_percent].
Qed.

Lemma irradiance_range (h : Z) (cc : R) :
  0 <= cc <= 100 -> 0 <= calc_solar_irradiance h cc <= 1000.
Proof.
  intros Hc. unfold calc_solar_irradiance.
  destruct ((h <? 6) || (19 <? h))%Z; [lra|].
  pose proof (COS_bound ((IZR h - 12) / 6 * PI / 2)) as [C1 C2].
  set (b := cos ((IZR h - 12) / 6 * PI / 2)) in *.
  set (f := 1 - cc / 100 * 0.7).
  assert (F : 0 <= f <= 1) by (unfold f; lra).
  assert (U : 1000 * b * f <= 1000).
  { destruct (Rle_dec b 0) as [N|N].
    - assert (0 <= (- (1000 * b)) * f) by (apply Rmult_le_pos; lra). lra.
    - assert ((1000 * b) * f <= (1000 * b) * 1)
        by (apply Rmult_le_compat_l; lra).
      lra. }
  unfold Py.max, Py.gt.
  destruct (Py.lt 0 (1000 * b * f)) eqn:E;
    [apply lt_true in E | apply lt_false in E]; lra.
Qed.

Lemma temperature_range (h : Z) :
  25 <= base_temp + sin ((IZR h - 6) / 12 * PI) * 5 <= 35.
Proof.
  unfold base_temp. pose proof (SIN_bound ((IZR h - 6) / 12 * PI)). lra.
Qed.

Lemma round0_between (a b : Z) (x : R) :
  IZR a <= x <= IZR b -> (a <= Py.round0 x <= b)%Z.
Proof. apply round_half_even_between. Qed.

(** X16.  The current conditions of [get_weather], for every clock and
    every state: temperature in [25, 35] and felt temperature in [27, 37],
    cloud cover in 0..100, solar irradiance in 0..1000 and UV index in
    0..11.  In the day hours 6..19 the UV index is at least 3; outside them
    the sky is reported clear with no irradiance and a UV index of 0. *)
Theorem weather_current_ranges (cal : Calendar) (now : Clock) (state : State) :
  let w := w_current (weather_of cal now state) in
  25 <= w_temperature w <= 35 /\
  27 <= w_feelsLike w <= 37 /\
  (0 <= w_cloudCover w <= 100)%Z /\
  (0 <= w_solarIrradiance w <= 1000)%Z /\
  (0 <= w_uvIndex w <= 11)%Z /\
  ((6 <= now_hour now <= 19)%Z -> (3 <= w_uvIndex w)%Z) /\
  ((now_hour now < 6 \/ 19 < now_hour now)%Z ->
   w_condition w = "clear"%string /\ w_solarIrradiance w = 0%Z /\ w_uvIndex w = 0%Z).
Proof.
  cbv zeta. unfold weather_of;
    cbn [w_current w_temperature w_feelsLike w_cloudCover w_solarIrradiance
         w_uvIndex w_condition].
  set (h := now_hour now).
  set (cc := cloud_cover_of h (solar (power state))).
  pose proof (cloud_cover_range h (solar (power state))) as C. fold cc in C.
  pose proof (temperature_range h) as T.
  pose proof (irradiance_range h cc C) as I.
  assert (U : (3 <= Py.round0 ((1 - cc / 100) * 8 + 3) <= 11)%Z)
    by (apply round0_between; lra).
  split.
  { assert (B : IZR 250 / 10 <= Py.round (base_temp + sin ((IZR h - 6) / 12 * PI) * 5) 1
                <= IZR 350 / 10) by (apply round1_between; lra).
    lra. }
  split.
  { assert (B : IZR 270 / 10
                <= Py.round (base_temp + sin ((IZR h - 6) / 12 * PI) * 5 + 2) 1
                <= IZR 370 / 10) by (apply round1_between; lra).
    lra. }
  split; [apply round0_between; lra|].
  split; [apply round0_between; lra|].
  split; [destruct ((6 <=? h) && (h <=? 19))%Z; lia|].
  split.
  - intros Hh.
    replace ((6 <=? h) && (h <=? 19))%Z with true; [lia|].
    symmetry. apply andb_true_iff. split; apply Z.leb_le; lia.
  - intros Hh.
    assert (N : ((h <? 6) || (19 <? h))%Z = true).
    { apply orb_true_iff. destruct Hh; [left; apply Z.ltb_lt | right; apply Z.ltb_lt]; lia. }
    assert (D : ((6 <=? h) && (h <=? 19))%Z = false).
    { apply andb_false_iff.
      destruct Hh; [left; apply Z.leb_gt | right; apply Z.leb_gt]; lia. }
    unfold get_condition, calc_solar_irradiance. rewrite N, D.
    split; [reflexivity|]. split; [|reflexivity].
    unfold Py.round0. apply (round_half_even_near 0). lra.
Qed.

Lemma weather_current_ranges_witness :
  (6 <= now_hour noon <= 19)%Z /\
  (3 <= w_uvIndex (w_current (weather_of calendar0 noon (initial_state 0))))%Z /\
  (now_hour (mkClock 0 23 15 "") < 6 \/ 19 < now_hour (mkClock 0 23 15 ""))%Z /\
  w_condition (w_current (weather_of calendar0 (mkClock 0 23 15 "") (initial_state 0)))
    = "clear"%string.
Proof.
  assert (H1 : (6 <= now_hour noon <= 19)%Z) by (cbn; lia).
  assert (H2 : (now_hour (mkClock 0 23 15 "") < 6 \/ 19 < now_hour (mkClock 0 23 15 ""))%Z)
    by (cbn; lia).
  pose proof (weather_current_ranges calendar0 noon (initial_state 0))
    as (_ & _ & _ & _ & _ & D & _).
  pose proof (weather_current_ranges calendar0 (mkClock 0 23 15 "") (initial_state 0))
    as (_ & _ & _ & _ & _ & _ & N).
  split; [exact H1|]. split; [exact (D H1)|]. split; [exact H2|].
  exact (proj1 (N H2)).
Defined.

Lemma fmt_02d_length (n : Z) :
  (0 <= n <= 23)%Z -> String.length (PyStr.fmt_02d n) = 2%nat.
Proof. intros H. each_hour H; reflexivity. Qed.

Lemma string_length_append (s1 s2 : string) :
  String.length (String.append s1 s2) = (String.length s1 + String.length s2)%nat.
Proof. induction s1 as [|a s1 IH]; cbn; [|rewrite IH]; reflexivity. Qed.

(** X17.  The hourly forecast of [get_weather] has 12 entries, for the 12
    hours after the current one, wrapping at midnight.  Every entry is
    labelled with its hour as two digits and ":00", and has a temperature in
    [25, 35], a cloud cover in 0..100 and a solar irradiance in 0..1000. *)
Theorem weather_forecast (cal : Calendar) (now : Clock) (state : State) :
  let fc := w_hourlyForecast (weather_of cal now state) in
  List.length fc = 12%nat /\
  map fc_hour fc
    = map (fun i : Z =>
             String.append (PyStr.fmt_02d ((now_hour now + i) mod 24)) ":00")
          [1; 2; 3; 4; 5; 6; 7; 8; 9; 10; 11; 12]%Z /\
  Forall (fun f : Forecast =>
            String.length (fc_hour f) = 5%nat /\
            25 <= fc_temperature f <= 35 /\
            (0 <= fc_cloudCover f <= 100)%Z /\
            (0 <= fc_solarIrradiance f <= 1000)%Z) fc.
Proof.
  cbv zeta. unfold weather_of; cbn [w_hourlyForecast].
  split; [reflexivity|]. split; [reflexivity|].
  apply Forall_forall. intros f Hf.
  apply in_map_iff in Hf. destruct Hf as (i & <- & _).
  unfold forecast_entry;
    cbn [fc_hour fc_temperature fc_cloudCover fc_solarIrradiance].
  set (fh := ((now_hour now + i) mod 24)%Z).
  assert (Hh : (0 <= fh <= 23)%Z).
  { unfold fh. pose proof (Z.mod_pos_bound (now_hour now + i) 24). lia. }
  set (cc := Py.max 0 (Py.min 100 _)).
  assert (C : 0 <= cc <= 100) by apply clamp_percent.
  pose proof (temperature_range fh) as T.
  pose proof (irradiance_range fh cc C) as I.
  split.
  { rewrite string_length_append, fmt_02d_length by exact Hh. reflexivity. }
  split.
  { assert (B : IZR 250 / 10
                <= Py.round (base_temp + sin ((IZR fh - 6) / 12 * PI) * 5) 1
                <= IZR 350 / 10) by (apply round1_between; lra).
    lra. }
  split; apply round0_between; lra.
Qed.

(** ** The singleton *)

(** X18.  Constructing the class creates the state once: after a
    construction an instance exists and a further construction changes
    nothing.  The first construction always installs a fresh initial state,
    also over a state that [get_state] had created and advanced before
    (the class method never records an instance). *)
Theorem new_singleton (now1 now2 : R) (cls : Class) :
  _instance (__new__ now1 cls) = true /\
  __new__ now2 (__new__ now1 cls) = __new__ now1 cls /\
  (_instance cls = false ->
   forall (t ti : R) (c : Clock) (st : State) (s' : Sim),
     get_state t ti c (attrs cls) = Some (st, s') ->
     attrs (__new__ now1 (mkClass (_instance cls) s')) = _initialize_state now1).
Proof.
  unfold __new__.
  destruct (_instance cls) eqn:E.
  - rewrite E. repeat split; trivial. discriminate.
  - cbn. repeat split; trivial.
Qed.

Lemma new_singleton_witness :
  _instance (mkClass false (mkSim None 0)) = false /\
  get_state 500 0 noon (attrs (mkClass false (_initialize_state 0)))
    = Some (advance noon (500 - 0) (initial_state 0),
            mkSim (Some (advance noon (500 - 0) (initial_state 0))) (time_ms noon)) /\
  attrs (__new__ 900
           (mkClass (_instance (mkClass false (_initialize_state 0)))
              (mkSim (Some (advance noon (500 - 0) (initial_state 0))) (time_ms noon))))
    = _initialize_state 900.
Proof.
  assert (E : get_state 500 0 noon (attrs (mkClass false (_initialize_state 0)))
              = Some (advance noon (500 - 0) (initial_state 0),
                      mkSim (Some (advance noon (500 - 0) (initial_state 0)))
                            (time_ms noon))).
  { apply (get_state_advanced 500 0 noon (_initialize_state 0) (initial_state 0)).
    - reflexivity.
    - cbn. lra. }
  split; [reflexivity|]. split; [exact E|].
  exact (proj2 (proj2 (new_singleton 900 0 (mkClass false (_initialize_state 0))))
           eq_refl 500 0 noon _ _ E).
Defined.

(** ** The battery in the long run *)

Lemma run_soc_le (steps : list step) (st : State) :
  soc_stored (batterySOC (kpis st)) ->
  Forall (fun s : step => 0 <= snd s) steps ->
  batterySOC (kpis (run steps st)) <= batterySOC (kpis st).
Proof.
  intros S H. revert st S.
  induction H as [|[c d] steps Hd _ IH]; intros st S.
  - cbn. lra.
  - rewrite run_cons. cbn [snd] in Hd.
    pose proof (advance_soc_le c d st S Hd).
    pose proof (IH _ (advance_soc_stored c d st)). lra.
Qed.

(** X19.  Battery alerts are never cleared.  Along a run from the initial
    state with [delta_ms >= 0] throughout, once the alerts computed from the
    state hold a critical battery alert they hold one after every further
    advance, and likewise for a battery alert of either severity. *)
Theorem battery_alert_persists
  (ts1 ts2 : string) (steps1 steps2 : list step) (now : R) :
  Forall (fun s : step => 0 <= snd s) steps2 ->
  let before := alerts_of ts1 (run steps1 (initial_state now)) in
  let after := alerts_of ts2 (run (steps1 ++ steps2) (initial_state now)) in
  (existsb (is_alert "battery" "critical") before = true ->
   existsb (is_alert "battery" "critical") after = true) /\
  (existsb (has_category "battery") before = true ->
   existsb (has_category "battery") after = true).
Proof.
  intros H. cbv zeta.
  pose proof (run_soc_stored steps1 _ (initial_soc_stored now)) as S.
  pose proof (run_soc_le steps2 _ S H) as L. rewrite <- run_app in L.
  pose proof (alerts_of_thresholds ts1 (run steps1 (initial_state now)))
    as (A1 & _ & A3 & _).
  pose proof (alerts_of_thresholds ts2 (run (steps1 ++ steps2) (initial_state now)))
    as (B1 & _ & B3 & _).
  split.
  - intros C. apply B1. apply A1 in C. lra.
  - intros C. apply not_false_iff_true. intros E. apply B3 in E.
    assert (F : existsb (has_category "battery")
                  (alerts_of ts1 (run steps1 (initial_state now))) = false)
      by (apply A3; lra).
    congruence.
Qed.

Lemma advance_soc_frozen (c : Clock) (delta_ms : R) (st : State) :
  soc_stored (batterySOC (kpis st)) ->
  batterySOC (kpis st) <= 15 ->
  batterySOC (kpis (advance c delta_ms st)) = batterySOC (kpis st) /\
  battery (power (advance c delta_ms st)) = 0.
Proof.
  intros S H.
  pose proof (soc_stored_range _ S) as B.
  destruct S as (n & _ & E).
  pose proof (net_power_le c) as N.
  unfold advance; cbn [power kpis battery batterySOC].
  rewrite flows_battery, flows_soc. unfold battery_control.
  replace (Py.gt (solar_power c - load_power c) 5) with false
    by (symmetry; apply gt_false; lra).
  replace (Py.gt (batterySOC (kpis st)) 15) with false
    by (symmetry; apply gt_false; lra).
  rewrite andb_false_r. cbn [andb fst snd].
  split; [|apply round_zero].
  rewrite clamp_soc_id by exact B. rewrite E. apply round_of_hundredths.
Qed.

Lemma run_soc_frozen (steps : list step) (st : State) :
  soc_stored (batterySOC (kpis st)) ->
  batterySOC (kpis st) <= 15 ->
  batterySOC (kpis (run steps st)) = batterySOC (kpis st).
Proof.
  revert st. induction steps as [|[c d] steps IH]; intros st S H; [reflexivity|].
  rewrite run_cons.
  destruct (advance_soc_frozen c d st S H) as [E _].
  rewrite IH.
  - exact E.
  - apply advance_soc_stored.
  - rewrite E. exact H.
Qed.

Example soc_after_long_pause :
  batterySOC (kpis (run [(noon0, 3600000000)] (initial_state 0))) = 10.
Proof.
  cbn [run fold_left]. unfold advance; cbn [kpis batterySOC].
  rewrite flows_soc. cbn [initial_state kpis batterySOC].
  rewrite solar_power_noon0, load_power_noon0.
  unfold battery_control.
  replace (Py.gt (45 - 76) 5) with false by (symmetry; apply gt_false; lra).
  replace (Py.lt (45 - 76) (-5)) with true by (symmetry; apply lt_true; lra).
  replace (Py.gt 75 15) with true by (symmetry; apply gt_true; lra).
  cbn [andb snd].
  replace (Py.max ((45 - 76) * 0.8) (-25)) with (-24.8)
    by (unfold Py.max; replace (Py.gt (-25) ((45 - 76) * 0.8)) with false
          by (symmetry; apply gt_false; lra); lra).
  destruct (clamp_soc_cases (75 + -24.8 * 3600000000 / 1000 / 3600 / 100 * 2))
    as [[? ->]|[[? ->]|[? ->]]]; try lra.
  replace 10 with (IZR 1000 / 100) by lra. apply round_of_hundredths.
Qed.

(** X20.  The discharge floor.  Once the stored SOC of a state reached
    from the initial one is 15 or less, no sequence of advances, whatever
    the elapsed times, changes it again, and every further advance stores a
    battery power of 0: the battery is never recharged. *)
Theorem soc_floor_is_final
  (steps1 steps2 : list step) (now : R) (c : Clock) (delta_ms : R) :
  let st := run steps1 (initial_state now) in
  let st' := run (steps1 ++ steps2) (initial_state now) in
  batterySOC (kpis st) <= 15 ->
  batterySOC (kpis st') = batterySOC (kpis st) /\
  battery (power (advance c delta_ms st')) = 0.
Proof.
  cbv zeta. intros H. rewrite run_app.
  pose proof (run_soc_stored steps1 _ (initial_soc_stored now)) as S.
  pose proof (run_soc_frozen steps2 _ S H) as E.
  split; [exact E|].
  apply advance_soc_frozen.
  - apply run_soc_stored, S.
  - rewrite E. exact H.
Qed.

Lemma soc_floor_is_final_witness :
  batterySOC (kpis (run [(noon0, 3600000000)] (initial_state 0))) <= 15 /\
  batterySOC (kpis (run ([(noon0, 3600000000)] ++ [(noon, 777); (noon0, 5)])
                        (initial_state 0)))
    = batterySOC (kpis (run [(noon0, 3600000000)] (initial_state 0))).
Proof.
  assert (H : batterySOC (kpis (run [(noon0, 3600000000)] (initial_state 0))) <= 15).
  { rewrite soc_after_long_pause. lra. }
  split; [exact H|].
  exact (proj1 (soc_floor_is_final [(noon0, 3600000000)] [(noon, 777); (noon0, 5)]
                  0 noon 0 H)).
Defined.

Lemma battery_alert_persists_witness :
  Forall (fun s : step => 0 <= snd s) [(noon, 777)] /\
  existsb (is_alert "battery" "critical")
          (alerts_of "a" (run [(noon0, 3600000000)] (initial_state 0))) = true /\
  existsb (is_alert "battery" "critical")
          (alerts_of "b" (run ([(noon0, 3600000000)] ++ [(noon, 777)])
                              (initial_state 0))) = true.
Proof.
  assert (H : Forall (fun s : step => 0 <= snd s) [(noon, 777)]).
  { repeat constructor; cbn; lra. }
  assert (C : existsb (is_alert "battery" "critical")
                (alerts_of "a" (run [(noon0, 3600000000)] (initial_state 0))) = true).
  { apply (alerts_of_thresholds "a"). rewrite soc_after_long_pause. lra. }
  split; [exact H|]. split; [exact C|].
  exact (proj1 (battery_alert_persists "a" "b" [(noon0, 3600000000)] [(noon, 777)]
                  0 H) C).
Defined.

(** ** The sites together *)

